(** * qSOFA screening score and trend alerts of [server.js]

    A shallow embedding of the logic of the server: [calculateQSOFA]
    (server.js, lines 12-34), the alert loop of the summary handler (lines
    164-254), [ensurePatient], the two patient routes over a model of the
    store, and the demo scenario, followed by the properties proved about them. *)

From Stdlib Require Import ZArith QArith Bool Ascii String DecimalString.
From Stdlib Require Import List Sorted Permutation Lia.
Import ListNotations.

Local Open Scope string_scope.
Local Open Scope list_scope.
Local Open Scope Z_scope.

(** ** The fragment of JavaScript the code relies on *)

Module Js.

(** A JavaScript number, as far as ordering is concerned: every finite
    double is a rational, and [-0] and [+0] compare equal. *)
Inductive Number : Type :=
| NaN
| NegInfinity
| Finite (q : Q)
| PosInfinity.

Definition num (z : Z) : Number := Finite (inject_Z z).

(** The relational comparison of two numbers: undefined ([None]) as soon
    as one side is [NaN]. *)
Definition compare (a b : Number) : option comparison :=
  match a, b with
  | NaN, _ | _, NaN => None
  | NegInfinity, NegInfinity => Some Eq
  | NegInfinity, _ => Some Lt
  | _, NegInfinity => Some Gt
  | PosInfinity, PosInfinity => Some Eq
  | PosInfinity, _ => Some Gt
  | _, PosInfinity => Some Lt
  | Finite x, Finite y => Some (x ?= y)%Q
  end.

(** [a < b], [a <= b], [a > b], [a >= b]: false when undefined. *)
Definition lt (a b : Number) : bool :=
  match compare a b with Some Lt => true | _ => false end.
Definition le (a b : Number) : bool :=
  match compare a b with Some Lt | Some Eq => true | _ => false end.
Definition gt (a b : Number) : bool :=
  match compare a b with Some Gt => true | _ => false end.
Definition ge (a b : Number) : bool :=
  match compare a b with Some Gt | Some Eq => true | _ => false end.

(** The values a [mentalStatus] property can hold: absent, or a string. *)
Inductive Value : Type :=
| Undefined
| Null
| Str (s : string).

(** ToBoolean: [undefined], [null] and the empty string are falsy. *)
Definition truthy (v : Value) : bool :=
  match v with
  | Undefined | Null => false
  | Str s => negb (String.eqb s "")
  end.

(** Outcome of evaluating code that may throw. *)
Inductive Error : Type := TypeError.

Inductive Completion (A : Type) : Type :=
| Return (a : A)
| Throw (e : Error).
Arguments Return {A} a.
Arguments Throw {A} e.

Definition bind {A B : Type} (c : Completion A) (k : A -> Completion B)
  : Completion B :=
  match c with
  | Return a => k a
  | Throw e => Throw e
  end.

(** [String.prototype.toLowerCase] on the letters A-Z.  Characters
    outside that range are kept: no other character lowers to a letter of
    ['alert'], which is all the callers compare the result with. *)
Definition lowerChar (c : ascii) : ascii :=
  let n := nat_of_ascii c in
  if (65 <=? n)%nat && (n <=? 90)%nat then ascii_of_nat (n + 32) else c.

Fixpoint lowerString (s : string) : string :=
  match s with
  | EmptyString => EmptyString
  | String c s' => String (lowerChar c) (lowerString s')
  end.

(** The method call [v.toLowerCase()]: a TypeError on [undefined] and
    [null], which have no properties. *)
Definition toLowerCase (v : Value) : Completion string :=
  match v with
  | Str s => Return (lowerString s)
  | Undefined | Null => Throw TypeError
  end.

(** [a && b] in a condition: [b] is evaluated only when [a] is truthy. *)
Definition and_then (a : bool) (b : Completion bool) : Completion bool :=
  if a then b else Return false.

(** [arr[i]] followed by a property access: a TypeError when [i] is out
    of range, because the element is then [undefined]. *)
Definition index {A : Type} (arr : list A) (i : nat) : Completion A :=
  match nth_error arr i with
  | Some a => Return a
  | None => Throw TypeError
  end.

(** An integer-valued number inside a template literal. *)
Definition numberToString (z : Z) : string :=
  NilZero.string_of_int (Z.to_int z).

End Js.

Import Js.

Notation "x <- c ;; k" := (Js.bind c (fun x => k))
  (at level 61, c at next level, right associativity).

(** ** calculateQSOFA *)

Record Observation : Type := mkObservation {
  respiratoryRate : Js.Number;
  systolicBP : Js.Number;
  mentalStatus : Js.Value
}.

Record ScoreResult : Type := mkScoreResult {
  score : Z;
  riskLabel : string;
  reasons : list string
}.

(** [arr.push(x)] on the array threaded through the function. *)
Definition push {A : Type} (arr : list A) (x : A) : list A := arr ++ [x].

Definition calculateQSOFA (o : Observation) : Js.Completion ScoreResult :=
  let score := 0 in
  let reasons := [] in
  let '(score, reasons) :=
    if Js.ge (respiratoryRate o) (Js.num 22)
    then (score + 1, push reasons "Respiratory rate at or above 22 breaths/min")
    else (score, reasons) in
  let '(score, reasons) :=
    if Js.le (systolicBP o) (Js.num 100)
    then (score + 1, push reasons "Systolic blood pressure at or below 100 mmHg")
    else (score, reasons) in
  altered <- Js.and_then (Js.truthy (mentalStatus o))
               (lower <- Js.toLowerCase (mentalStatus o) ;;
                Return (negb (String.eqb lower "alert"))) ;;
  let '(score, reasons) :=
    if (altered : bool)
    then (score + 1, push reasons "Altered mental status (not fully alert)")
    else (score, reasons) in
  let riskLabel := "Low screening score" in
  let riskLabel := if score =? 1 then "Intermediate screening score" else riskLabel in
  let riskLabel := if score >=? 2 then "High screening score" else riskLabel in
  Return (mkScoreResult score riskLabel reasons).

(** ** Stored readings and derived alerts *)

Module Reading.
(** A document of the [Reading] collection, as the summary handler reads
    it back.  [qsofaScore] is only ever written from the counter of
    [calculateQSOFA], hence an integer. *)
Record t : Type := mk {
  respiratoryRate : Js.Number;
  systolicBP : Js.Number;
  mentalStatus : Js.Value;
  timestamp : Z;
  qsofaScore : Z;
  qsofaRiskLabel : string;
  qsofaReasons : list string
}.
End Reading.

Module Alert.
Record t : Type := mk {
  type : string;
  level : string;
  timestamp : Z;
  explanation : string
}.
End Alert.

(** The scoring and [Reading.create] of the POST handler (lines 131-146),
    once the request has passed the required-field check. *)
Definition createReading (o : Observation) (timestamp : Z)
  : Js.Completion Reading.t :=
  r <- calculateQSOFA o ;;
  Return (Reading.mk (respiratoryRate o) (systolicBP o) (mentalStatus o)
            timestamp (score r) (riskLabel r) (reasons r)).

(** The five object literals pushed by the loop (lines 186-191, 196-202,
    207-213, 216-222 and 228-234). *)
Definition riskEscalatingAlert (prev curr : Reading.t) : Alert.t :=
  Alert.mk "Risk escalating" "warning" (Reading.timestamp curr)
    ("qSOFA screening score increased from "
       ++ Js.numberToString (Reading.qsofaScore prev)
       ++ " to " ++ Js.numberToString (Reading.qsofaScore curr)
       ++ " between readings.")%string.

Definition highRiskAlert (curr : Reading.t) : Alert.t :=
  Alert.mk "High risk screening score" "high" (Reading.timestamp curr)
    "qSOFA screening score is at or above 2 based on respiratory rate, blood pressure, and mental status criteria.".

Definition respiratoryRateAlert (curr : Reading.t) : Alert.t :=
  Alert.mk "Respiratory rate threshold crossed" "warning" (Reading.timestamp curr)
    "Respiratory rate increased above the screening threshold of 22 breaths/min compared to the prior reading.".

Definition bloodPressureAlert (curr : Reading.t) : Alert.t :=
  Alert.mk "Blood pressure threshold crossed" "warning" (Reading.timestamp curr)
    "Systolic blood pressure dropped to or below the screening threshold of 100 mmHg compared to the prior reading.".

Definition mentalStatusAlert (curr : Reading.t) : Alert.t :=
  Alert.mk "Change in mental status" "high" (Reading.timestamp curr)
    "Mental status changed from fully alert to an altered state between readings based on recorded input.".

(** The body of the loop for one pair (lines 184-235), threading the
    [alerts] array. *)
Definition trendBody (prev curr : Reading.t) (alerts : list Alert.t)
  : Js.Completion (list Alert.t) :=
  let alerts :=
    if Reading.qsofaScore curr >? Reading.qsofaScore prev
    then push alerts (riskEscalatingAlert prev curr) else alerts in
  let alerts :=
    if Reading.qsofaScore curr >=? 2
    then push alerts (highRiskAlert curr) else alerts in
  let alerts :=
    if Js.ge (Reading.respiratoryRate curr) (Js.num 22)
       && Js.lt (Reading.respiratoryRate prev) (Js.num 22)
    then push alerts (respiratoryRateAlert curr) else alerts in
  let alerts :=
    if Js.le (Reading.systolicBP curr) (Js.num 100)
       && Js.gt (Reading.systolicBP prev) (Js.num 100)
    then push alerts (bloodPressureAlert curr) else alerts in
  changed <- (prevLower <- Js.toLowerCase (Reading.mentalStatus prev) ;;
              Js.and_then (String.eqb prevLower "alert")
                (currLower <- Js.toLowerCase (Reading.mentalStatus curr) ;;
                 Return (negb (String.eqb currLower "alert")))) ;;
  Return (if (changed : bool) then push alerts (mentalStatusAlert curr) else alerts).

(** One iteration: [prev = readings[i - 1]], [curr = readings[i]], then the
    body (lines 181-235). *)
Definition trendIteration (readings : list Reading.t) (i : nat)
  (alerts : list Alert.t) : Js.Completion (list Alert.t) :=
  prev <- Js.index readings (i - 1) ;;
  curr <- Js.index readings i ;;
  trendBody prev curr alerts.

(** [for (let i = start; ...; i++)] run for [count] iterations. *)
Fixpoint forLoop {S : Type} (body : nat -> S -> Js.Completion S)
  (i count : nat) (s : S) : Js.Completion S :=
  match count with
  | O => Return s
  | Datatypes.S count' => s' <- body i s ;; forLoop body (Datatypes.S i) count' s'
  end.

(** Lines 179-236: [alerts = []], then [i] runs from [1] while
    [i < readings.length]. *)
Definition trendAlerts (readings : list Reading.t)
  : Js.Completion (list Alert.t) :=
  forLoop (trendIteration readings) 1 (length readings - 1) [].

(** The response of the summary handler for a known patient (lines 164-254). *)
Record Overall : Type := mkOverall {
  latestQSOFA : Z;
  latestRiskLabel : string;
  totalReadings : nat
}.

Record Summary : Type := mkSummary {
  readings : list Reading.t;
  alerts : list Alert.t;
  overall : option Overall
}.

Definition summary (readings : list Reading.t) : Js.Completion Summary :=
  if (length readings =? 0)%nat
  then Return (mkSummary [] [] None)
  else
    alerts <- trendAlerts readings ;;
    latest <- Js.index readings (length readings - 1) ;;
    Return (mkSummary readings alerts
              (Some (mkOverall (Reading.qsofaScore latest)
                       (Reading.qsofaRiskLabel latest) (length readings)))).

(** ** The specification's reading of the trend derivation *)

(** A reading as the schema declares it: [mentalStatus] is a string. *)
Definition hasStringStatus (r : Reading.t) : bool :=
  match Reading.mentalStatus r with
  | Str _ => true
  | Undefined | Null => false
  end.

(** Case-insensitive equality with ['alert']. *)
Definition isAlert (v : Js.Value) : bool :=
  match v with
  | Str s => String.eqb (Js.lowerString s) "alert"
  | Undefined | Null => false
  end.

Inductive Rule : Type :=
| RiskEscalating
| HighRisk
| RespiratoryRateCrossed
| BloodPressureCrossed
| MentalStatusChanged.

(** The rules in the order the specification declares them. *)
Definition spec_rules : list Rule :=
  [RiskEscalating; HighRisk; RespiratoryRateCrossed; BloodPressureCrossed;
   MentalStatusChanged].

Definition spec_fires (rule : Rule) (prev curr : Reading.t) : bool :=
  match rule with
  | RiskEscalating => Reading.qsofaScore prev <? Reading.qsofaScore curr
  | HighRisk => 2 <=? Reading.qsofaScore curr
  | RespiratoryRateCrossed =>
      Js.ge (Reading.respiratoryRate curr) (Js.num 22)
      && Js.lt (Reading.respiratoryRate prev) (Js.num 22)
  | BloodPressureCrossed =>
      Js.le (Reading.systolicBP curr) (Js.num 100)
      && Js.gt (Reading.systolicBP prev) (Js.num 100)
  | MentalStatusChanged =>
      isAlert (Reading.mentalStatus prev)
      && negb (isAlert (Reading.mentalStatus curr))
  end.

Definition spec_alert (rule : Rule) (prev curr : Reading.t) : Alert.t :=
  match rule with
  | RiskEscalating => riskEscalatingAlert prev curr
  | HighRisk => highRiskAlert curr
  | RespiratoryRateCrossed => respiratoryRateAlert curr
  | BloodPressureCrossed => bloodPressureAlert curr
  | MentalStatusChanged => mentalStatusAlert curr
  end.

(** The alerts of one pair: the rules that fire, in declaration order. *)
Definition spec_pairAlerts (prev curr : Reading.t) : list Alert.t :=
  map (fun rule => spec_alert rule prev curr)
    (filter (fun rule => spec_fires rule prev curr) spec_rules).

(** The alerts of the pair ending at index [i]. *)
Definition spec_alertsAt (readings : list Reading.t) (i : nat) : list Alert.t :=
  match nth_error readings (i - 1), nth_error readings i with
  | Some prev, Some curr => spec_pairAlerts prev curr
  | _, _ => []
  end.

(** Concatenation over the pair indices [1 .. n-1], in that order. *)
Definition spec_alerts (readings : list Reading.t) : list Alert.t :=
  flat_map (spec_alertsAt readings) (seq 1 (length readings - 1)).

(** The alerts whose type is one of [tys], in their order of appearance,
    and the number of alerts of one type. *)
Definition ofTypes (tys : list string) (l : list Alert.t) : list Alert.t :=
  filter (fun a => existsb (String.eqb (Alert.type a)) tys) l.

Definition countType (ty : string) (l : list Alert.t) : nat :=
  List.length (ofTypes [ty] l).

(** The label the specification assigns to a score. *)
Definition spec_riskLabel (score : Z) : string :=
  if score =? 0 then "Low screening score"
  else if score =? 1 then "Intermediate screening score"
  else "High screening score".

(** The specification's mental-status criterion: present, non-empty and
    not ['alert'] whatever the casing. *)
Definition spec_alteredMentalStatus (v : Js.Value) : bool :=
  match v with
  | Str s => negb (String.eqb s "") && negb (String.eqb (Js.lowerString s) "alert")
  | Undefined | Null => false
  end.

Definition b2z (b : bool) : Z := if b then 1 else 0.

(** The specification's score: three independent criteria worth one point
    each, the reasons in evaluation order, the label chosen by the sum. *)
Definition spec_score (o : Observation) : ScoreResult :=
  let c1 := Js.ge (respiratoryRate o) (Js.num 22) in
  let c2 := Js.le (systolicBP o) (Js.num 100) in
  let c3 := spec_alteredMentalStatus (mentalStatus o) in
  let total := b2z c1 + b2z c2 + b2z c3 in
  mkScoreResult total (spec_riskLabel total)
    ((if c1 then ["Respiratory rate at or above 22 breaths/min"] else [])
     ++ (if c2 then ["Systolic blood pressure at or below 100 mmHg"] else [])
     ++ (if c3 then ["Altered mental status (not fully alert)"] else [])).

(** ** Example inputs *)

Definition obs (rr sbp : Z) (status : string) : Observation :=
  mkObservation (Js.num rr) (Js.num sbp) (Str status).

(** A stored reading with the given vitals, timestamp and score. *)
Definition reading (rr sbp : Z) (status : Js.Value) (ts score : Z) : Reading.t :=
  Reading.mk (Js.num rr) (Js.num sbp) status ts score (spec_riskLabel score) [].

(** What the POST handler stores for (18, 120, "Alert") at time 0 and for
    (25, 90, "Confused") a quarter of an hour later. *)
Definition calmReading : Reading.t :=
  Reading.mk (Js.num 18) (Js.num 120) (Str "Alert") 0 0 "Low screening score" [].

Definition septicReading : Reading.t :=
  Reading.mk (Js.num 25) (Js.num 90) (Str "Confused") 900000 3
    "High screening score"
    ["Respiratory rate at or above 22 breaths/min";
     "Systolic blood pressure at or below 100 mmHg";
     "Altered mental status (not fully alert)"].

(** [undefined] or [null]: a property that is missing from the document. *)
Definition absent (v : Js.Value) : Prop := v = Undefined \/ v = Null.

(** A document whose [mentalStatus] is missing. *)
Definition statuslessReading : Reading.t :=
  Reading.mk (Js.num 18) (Js.num 120) Undefined 0 0 "Low screening score" [].

(** ** When the loop body can be evaluated *)

(** The status comparison of one pair goes through: the previous status
    is a string and, when it lowers to ['alert'], so is the current one
    (the right operand of [&&] is not evaluated otherwise). *)
Definition evaluable (prev curr : Reading.t) : bool :=
  hasStringStatus prev
  && (negb (isAlert (Reading.mentalStatus prev)) || hasStringStatus curr).

Definition evaluableAt (readings : list Reading.t) (i : nat) : bool :=
  match nth_error readings (i - 1), nth_error readings i with
  | Some prev, Some curr => evaluable prev curr
  | _, _ => false
  end.

Definition isNaN (x : Js.Number) : bool :=
  match x with
  | NaN => true
  | _ => false
  end.

(** ** The demo scenario (lines 262-291) *)

(** [arr.map((x, idx) => f(x, idx))] for a callback that may throw. *)
Fixpoint mapIndexed {A B : Type} (f : A -> nat -> Js.Completion B)
  (arr : list A) (idx : nat) : Js.Completion (list B) :=
  match arr with
  | [] => Return []
  | x :: arr' =>
      y <- f x idx ;;
      ys <- mapIndexed f arr' (Datatypes.S idx) ;;
      Return (y :: ys)
  end.

(** The callback of lines 266-285; [now] is the value of [Date.now()]. *)
Definition demoReading (now : Z) (min : Z) (idx : nat) : Js.Completion Reading.t :=
  let ts := now + min * 60 * 1000 in
  let respiratoryRate := Js.num (18 + Z.of_nat idx * 2) in
  let systolicBP := Js.num (115 - Z.of_nat idx * 5) in
  let mentalStatus := if (idx <? 3)%nat then Str "Alert" else Str "Drowsy" in
  r <- calculateQSOFA (mkObservation respiratoryRate systolicBP mentalStatus) ;;
  Return (Reading.mk respiratoryRate systolicBP mentalStatus ts
            (score r) (riskLabel r) (reasons r)).

Definition demoScenario (now : Z) : Js.Completion (list Reading.t) :=
  let intervals := [0; 15; 30; 45] in
  mapIndexed (demoReading now) intervals 0.

(** ** The collections and [ensurePatient] (lines 37-61 and 100-110) *)

Module Patient.
(** A document of the [Patient] collection.  [name] and [location] are
    optional strings; [_id] is the identifier the store gives at creation. *)
Record t : Type := mk {
  _id : nat;
  externalId : string;
  name : Js.Value;
  location : Js.Value
}.
End Patient.

Module ReadingDoc.
(** A document of the [Reading] collection: the [patient] reference next to
    the fields of the reading. *)
Record t : Type := mk {
  patient : nat;
  reading : Reading.t
}.
End ReadingDoc.

Record Db : Type := mkDb {
  patientCollection : list Patient.t;
  readingCollection : list ReadingDoc.t
}.

Definition emptyDb : Db := mkDb [] [].

(** [a === b] on absent values and strings. *)
Definition strictEq (a b : Js.Value) : bool :=
  match a, b with
  | Undefined, Undefined => true
  | Null, Null => true
  | Str s, Str t => String.eqb s t
  | _, _ => false
  end.

(** [a || b] on values: [a] when truthy, [b] otherwise. *)
Definition orElse (a b : Js.Value) : Js.Value :=
  if Js.truthy a then a else b.

(** [Patient.findOne({ externalId })]: the first matching document, or
    [null]. *)
Definition findOne (ps : list Patient.t) (externalId : string)
  : option Patient.t :=
  find (fun p => String.eqb (Patient.externalId p) externalId) ps.

(** The identifier of a new document: one the collection does not hold. *)
Definition freshId (ps : list Patient.t) : nat :=
  Datatypes.S (list_max (map Patient._id ps)).

(** [Patient.create(...)]: the document is added to the collection. *)
Definition createPatient (ps : list Patient.t) (p : Patient.t) : list Patient.t :=
  ps ++ [p].

(** [patient.save()]: the stored document with that [_id] is replaced. *)
Definition savePatient (ps : list Patient.t) (p : Patient.t) : list Patient.t :=
  map (fun q => if (Patient._id q =? Patient._id p)%nat then p else q) ps.

Definition ensurePatient (db : Db) (externalId : string)
  (name location : Js.Value) : Db * Patient.t :=
  match findOne (patientCollection db) externalId with
  | None =>
      let patient :=
        Patient.mk (freshId (patientCollection db)) externalId name location in
      (mkDb (createPatient (patientCollection db) patient)
         (readingCollection db), patient)
  | Some patient =>
      if (Js.truthy name && negb (strictEq name (Patient.name patient)))
         || (Js.truthy location
             && negb (strictEq location (Patient.location patient)))
      then
        let patient :=
          Patient.mk (Patient._id patient) (Patient.externalId patient)
            (orElse name (Patient.name patient))
            (orElse location (Patient.location patient)) in
        (mkDb (savePatient (patientCollection db) patient)
           (readingCollection db), patient)
      else (db, patient)
  end.

(** ** The two patient routes (lines 113-153 and 156-259) *)

Module Body.
(** The JSON body of a POST: each vital is absent or a JSON number, which
    is finite; the other fields are absent or strings, the timestamp being
    the date string of the form. *)
Record t : Type := mk {
  name : Js.Value;
  location : Js.Value;
  respiratoryRate : option Q;
  systolicBP : option Q;
  mentalStatus : Js.Value;
  timestamp : Js.Value
}.
End Body.

Inductive Response : Type :=
| BadRequest
| NotFound
| ServerError
| Created (patientId : string) (reading : Reading.t)
| Ok (externalId : string) (name location : Js.Value) (s : Summary).

(** [new Date(timestamp)] on a truthy timestamp.  [parseDate] is the
    engine's date parser: the instant in milliseconds, or [None] for an
    invalid date, which the [Date] field of the schema refuses. *)
Definition toDate (parseDate : string -> option Z) (timestamp : Js.Value)
  : Js.Completion Z :=
  match timestamp with
  | Str s => match parseDate s with
             | Some t => Return t
             | None => Throw TypeError
             end
  | Undefined | Null => Throw TypeError
  end.

(** The POST route: the new state of the store and the response.  What
    [ensurePatient] wrote stays written when a later step throws. *)
Definition postReading (parseDate : string -> option Z) (db : Db)
  (externalId : string) (body : Body.t) : Db * Response :=
  match Body.respiratoryRate body, Body.systolicBP body with
  | Some respiratoryRate, Some systolicBP =>
      if negb (Js.truthy (Body.mentalStatus body))
         || negb (Js.truthy (Body.timestamp body))
      then (db, BadRequest)
      else
        let '(db, patient) :=
          ensurePatient db externalId (Body.name body) (Body.location body) in
        let stored :=
          r <- calculateQSOFA
                 (mkObservation (Finite respiratoryRate) (Finite systolicBP)
                    (Body.mentalStatus body)) ;;
          t <- toDate parseDate (Body.timestamp body) ;;
          Return (Reading.mk (Finite respiratoryRate) (Finite systolicBP)
                    (Body.mentalStatus body) t (score r) (riskLabel r)
                    (reasons r)) in
        match stored with
        | Return reading =>
            (mkDb (patientCollection db)
               (readingCollection db
                  ++ [ReadingDoc.mk (Patient._id patient) reading]),
             Created (Patient.externalId patient) reading)
        | Throw _ => (db, ServerError)
        end
  | _, _ => (db, BadRequest)
  end.

(** [.sort({ timestamp: 1 })]: ascending timestamps, documents with equal
    timestamps staying in the order of the collection. *)
Fixpoint insertByTimestamp (r : Reading.t) (sorted : list Reading.t)
  : list Reading.t :=
  match sorted with
  | [] => [r]
  | x :: rest =>
      if Reading.timestamp r <=? Reading.timestamp x
      then r :: x :: rest
      else x :: insertByTimestamp r rest
  end.

Definition sortByTimestamp (rs : list Reading.t) : list Reading.t :=
  fold_right insertByTimestamp [] rs.

(** [Reading.find({ patient: patient._id }).sort({ timestamp: 1 }).lean()]. *)
Definition readingsOf (db : Db) (patient : Patient.t) : list Reading.t :=
  sortByTimestamp
    (map ReadingDoc.reading
       (filter (fun d => (ReadingDoc.patient d =? Patient._id patient)%nat)
          (readingCollection db))).

(** The summary route. *)
Definition getSummary (db : Db) (externalId : string) : Response :=
  match findOne (patientCollection db) externalId with
  | None => NotFound
  | Some patient =>
      match summary (readingsOf db patient) with
      | Return s =>
          Ok (Patient.externalId patient) (Patient.name patient)
            (Patient.location patient) s
      | Throw _ => ServerError
      end
  end.

(** A sequence of POST requests, each with its route parameter. *)
Fixpoint postAll (parseDate : string -> option Z) (db : Db)
  (requests : list (string * Body.t)) : Db :=
  match requests with
  | [] => db
  | (externalId, body) :: rest =>
      postAll parseDate (fst (postReading parseDate db externalId body)) rest
  end.

(** The patient documents carry distinct identifiers, and every reading
    refers to one of them: what the store guarantees for [_id] and what the
    POST route maintains. *)
Definition consistent (db : Db) : Prop :=
  NoDup (map Patient._id (patientCollection db))
  /\ forall d, In d (readingCollection db) ->
               In (ReadingDoc.patient d) (map Patient._id (patientCollection db)).

(** The number of readings stored for an external identifier. *)
Definition storedCount (db : Db) (externalId : string) : nat :=
  match findOne (patientCollection db) externalId with
  | Some patient => List.length (readingsOf db patient)
  | None => 0
  end.

(** A body that passes the required-field check of the POST route. *)
Definition complete (body : Body.t) : bool :=
  match Body.respiratoryRate body, Body.systolicBP body with
  | Some _, Some _ =>
      Js.truthy (Body.mentalStatus body) && Js.truthy (Body.timestamp body)
  | _, _ => false
  end.


(** Every stored reading has a string for [mentalStatus]. *)
Definition allStatusesAreStrings (db : Db) : bool :=
  forallb (fun d => hasStringStatus (ReadingDoc.reading d)) (readingCollection db).

(** The readings the summary route lists for an external identifier. *)
Definition storedReadings (db : Db) (externalId : string) : list Reading.t :=
  match findOne (patientCollection db) externalId with
  | Some patient => readingsOf db patient
  | None => []
  end.


(** Whether a patient document exists for an external identifier. *)
Definition known (db : Db) (externalId : string) : bool :=
  match findOne (patientCollection db) externalId with
  | Some _ => true
  | None => false
  end.

(** ** An example session *)

(** A date parser for the examples: every string denotes the instant given
    by its length, in minutes. *)
Definition lengthAsMinutes (s : string) : option Z :=
  Some (Z.of_nat (String.length s) * 60000).

Definition feverishBody : Body.t :=
  Body.mk (Str "Ann") Undefined (Some (24 # 1)) (Some (95 # 1))
    (Str "Confused") (Str "2024-05-01T10:30").

Definition restingBody : Body.t :=
  Body.mk Undefined (Str "Ward 12") (Some (16 # 1)) (Some (120 # 1))
    (Str "Alert") (Str "2024-05-01").

(** The store after a resting reading for one bed, and after a feverish
    reading for the same bed. *)
Definition restedDb : Db :=
  postAll lengthAsMinutes emptyDb [("bed-3", restingBody)].

Definition wardDb : Db :=
  postAll lengthAsMinutes emptyDb
    [("bed-3", restingBody); ("bed-3", feverishBody)].

(** The reading stored for the feverish body. *)
Definition feverishReading : Reading.t :=
  Reading.mk (Finite (24 # 1)) (Finite (95 # 1)) (Str "Confused") 960000 3
    "High screening score"
    ["Respiratory rate at or above 22 breaths/min";
     "Systolic blood pressure at or below 100 mmHg";
     "Altered mental status (not fully alert)"].

(** A reading that is what the server computes from its own vitals and
    timestamp, with a non-empty status. *)
Definition selfScored (r : Reading.t) : Prop :=
  createReading
    (mkObservation (Reading.respiratoryRate r) (Reading.systolicBP r)
       (Reading.mentalStatus r))
    (Reading.timestamp r)
  = Return r
  /\ Js.truthy (Reading.mentalStatus r) = true.

(** Case analysis on every rule condition left in the goal. *)
Ltac case_fires :=
  repeat match goal with
         | |- context [spec_fires ?rule ?p ?c] => destruct (spec_fires rule p c)
         end.

(** * Properties *)

(** ** calculateQSOFA *)

(** The code computes the specification's score, and never throws: the
    truthiness guard keeps [toLowerCase] away from absent values. *)
Lemma calculateQSOFA_spec_score (o : Observation) :
  calculateQSOFA o = Return (spec_score o).
Proof.
  destruct o as [rr sbp ms].
  unfold calculateQSOFA, spec_score, spec_alteredMentalStatus.
  cbn [respiratoryRate systolicBP mentalStatus].
  destruct (Js.ge rr (Js.num 22)), (Js.le sbp (Js.num 100));
    destruct ms as [| | s]; cbn [Js.truthy Js.and_then]; try reflexivity;
    destruct (String.eqb s ""); cbn [negb andb Js.and_then Js.toLowerCase Js.bind];
    try reflexivity;
    destruct (String.eqb (Js.lowerString s) "alert"); reflexivity.
Qed.

Lemma lowerString_alert_nonempty (s : string) :
  Js.lowerString s = "alert" -> String.eqb s "" = false.
Proof. destruct s; [discriminate | reflexivity]. Qed.

(** C1: for every observation, calculateQSOFA returns a result whose score
    is the number of reasons and lies in {0,1,2,3}. *)
Theorem score_is_reason_count (o : Observation) :
  exists r, calculateQSOFA o = Return r
            /\ score r = Z.of_nat (List.length (reasons r))
            /\ In (score r) [0; 1; 2; 3].
Proof.
  exists (spec_score o). split; [apply calculateQSOFA_spec_score|].
  unfold spec_score.
  destruct (Js.ge _ _), (Js.le _ _), (spec_alteredMentalStatus _);
    cbn; intuition.
Qed.

(** C7: the mental-status criterion is worth exactly one point, earned if
    and only if the status is non-empty and differs from 'alert' whatever
    the casing; an empty or missing status earns nothing; and any casing of
    'alert' gives the result of 'alert' itself. *)
Theorem mental_status_criterion (rr sbp : Js.Number) :
  (forall v, exists r,
      calculateQSOFA (mkObservation rr sbp v) = Return r
      /\ score r = b2z (Js.ge rr (Js.num 22)) + b2z (Js.le sbp (Js.num 100))
                   + (if spec_alteredMentalStatus v then 1 else 0)
      /\ (In "Altered mental status (not fully alert)" (reasons r)
          <-> spec_alteredMentalStatus v = true))
  /\ (forall v, v = Undefined \/ v = Null \/ v = Str "" ->
        calculateQSOFA (mkObservation rr sbp v)
        = calculateQSOFA (mkObservation rr sbp (Str "alert")))
  /\ (forall s, Js.lowerString s = "alert" ->
        calculateQSOFA (mkObservation rr sbp (Str s))
        = calculateQSOFA (mkObservation rr sbp (Str "alert")))
  /\ calculateQSOFA (mkObservation rr sbp (Str "ALERT"))
     = calculateQSOFA (mkObservation rr sbp (Str "alert")).
Proof.
  split; [|split; [|split]].
  - intros v. exists (spec_score (mkObservation rr sbp v)).
    split; [apply calculateQSOFA_spec_score|].
    unfold spec_score; cbn [respiratoryRate systolicBP mentalStatus].
    destruct (Js.ge rr _), (Js.le sbp _), (spec_alteredMentalStatus v);
      cbn; intuition congruence.
  - intros v [-> | [-> | ->]]; rewrite !calculateQSOFA_spec_score; reflexivity.
  - intros s Hs. rewrite !calculateQSOFA_spec_score.
    unfold spec_score, spec_alteredMentalStatus.
    cbn [respiratoryRate systolicBP mentalStatus].
    rewrite Hs, (lowerString_alert_nonempty s Hs). reflexivity.
  - rewrite !calculateQSOFA_spec_score. reflexivity.
Qed.

Lemma mental_status_criterion_witness :
  calculateQSOFA (obs 30 80 "Alert") = calculateQSOFA (obs 30 80 "alert").
Proof.
  destruct (mental_status_criterion (Js.num 30) (Js.num 80))
    as (_ & _ & Hcase & _).
  apply (Hcase "Alert"). reflexivity.
Defined.

(** C8: the thresholds are inclusive: (22, 100, "Alert") scores 2 with the
    respiratory and blood-pressure reasons in that order, and
    (21, 101, "Alert") scores 0 with the label "Low screening score". *)
Theorem thresholds_are_inclusive :
  calculateQSOFA (obs 22 100 "Alert")
  = Return (mkScoreResult 2 "High screening score"
              ["Respiratory rate at or above 22 breaths/min";
               "Systolic blood pressure at or below 100 mmHg"])
  /\ calculateQSOFA (obs 21 101 "Alert")
     = Return (mkScoreResult 0 "Low screening score" []).
Proof. split; reflexivity. Qed.

(** C9: the risk label depends on the score alone: 0 gives "Low screening
    score", 1 gives "Intermediate screening score", 2 or more gives "High
    screening score", for every observation. *)
Theorem risk_label_follows_score (o : Observation) :
  exists r, calculateQSOFA o = Return r
            /\ riskLabel r = spec_riskLabel (score r)
            /\ ((score r = 0 /\ riskLabel r = "Low screening score")
                \/ (score r = 1 /\ riskLabel r = "Intermediate screening score")
                \/ (2 <= score r /\ riskLabel r = "High screening score")).
Proof.
  exists (spec_score o). split; [apply calculateQSOFA_spec_score|].
  split; [reflexivity|].
  unfold spec_score.
  destruct (Js.ge _ _), (Js.le _ _), (spec_alteredMentalStatus _);
    cbn; intuition lia.
Qed.

(** ** The comparisons behind the thresholds *)

Lemma ge_true_lt_false (a b : Js.Number) : Js.ge a b = true -> Js.lt a b = false.
Proof. unfold Js.ge, Js.lt. destruct (Js.compare a b) as [[]|]; congruence. Qed.

Lemma lt_true_ge_false (a b : Js.Number) : Js.lt a b = true -> Js.ge a b = false.
Proof. unfold Js.ge, Js.lt. destruct (Js.compare a b) as [[]|]; congruence. Qed.

Lemma le_true_gt_false (a b : Js.Number) : Js.le a b = true -> Js.gt a b = false.
Proof. unfold Js.le, Js.gt. destruct (Js.compare a b) as [[]|]; congruence. Qed.

Lemma gt_true_le_false (a b : Js.Number) : Js.gt a b = true -> Js.le a b = false.
Proof. unfold Js.le, Js.gt. destruct (Js.compare a b) as [[]|]; congruence. Qed.

(** ** One pair of readings *)

Lemma hasStringStatus_Str (r : Reading.t) :
  hasStringStatus r = true -> exists s, Reading.mentalStatus r = Str s.
Proof.
  unfold hasStringStatus.
  destruct (Reading.mentalStatus r) as [| | s]; try discriminate.
  intros _. now exists s.
Qed.

(** With string statuses the body appends exactly the alerts of the rules
    that fire, in declaration order. *)
Lemma trendBody_spec (prev curr : Reading.t) (acc : list Alert.t) :
  hasStringStatus prev = true -> hasStringStatus curr = true ->
  trendBody prev curr acc = Return (acc ++ spec_pairAlerts prev curr).
Proof.
  intros Hp Hc.
  destruct (hasStringStatus_Str prev Hp) as [sp Ep].
  destruct (hasStringStatus_Str curr Hc) as [sc Ec].
  unfold trendBody, spec_pairAlerts, spec_rules.
  cbn [filter spec_fires].
  rewrite Ep, Ec, Z.gtb_ltb, Z.geb_leb.
  cbn [Js.toLowerCase Js.bind isAlert].
  destruct (Reading.qsofaScore prev <? Reading.qsofaScore curr);
    destruct (2 <=? Reading.qsofaScore curr);
    destruct (Js.ge (Reading.respiratoryRate curr) (Js.num 22)
              && Js.lt (Reading.respiratoryRate prev) (Js.num 22));
    destruct (Js.le (Reading.systolicBP curr) (Js.num 100)
              && Js.gt (Reading.systolicBP prev) (Js.num 100));
    destruct (String.eqb (Js.lowerString sp) "alert");
    cbn [Js.and_then Js.bind andb];
    try destruct (String.eqb (Js.lowerString sc) "alert");
    cbn [negb map spec_alert]; unfold push;
    cbn [app]; repeat rewrite <- app_assoc; cbn [app]; rewrite ?app_nil_r;
    reflexivity.
Qed.

(** Each rule contributes one alert of its own type when it fires and none
    otherwise. *)
Lemma countType_pairAlerts (rule : Rule) (prev curr : Reading.t) :
  countType (Alert.type (spec_alert rule prev curr)) (spec_pairAlerts prev curr)
  = if spec_fires rule prev curr then 1%nat else 0%nat.
Proof.
  unfold countType, ofTypes, spec_pairAlerts, spec_rules. cbn [filter].
  destruct rule; case_fires; reflexivity.
Qed.

Lemma countType_app (ty : string) (l1 l2 : list Alert.t) :
  countType ty (l1 ++ l2) = (countType ty l1 + countType ty l2)%nat.
Proof. unfold countType, ofTypes. now rewrite filter_app, length_app. Qed.

Lemma push_app {A : Type} (l1 l2 : list A) (x : A) :
  push (l1 ++ l2) x = l1 ++ push l2 x.
Proof. unfold push. now rewrite app_assoc. Qed.

Lemma length_push {A : Type} (l : list A) (x : A) :
  List.length (push l x) = Datatypes.S (List.length l).
Proof. unfold push. rewrite length_app. cbn. lia. Qed.

(** Whatever the statuses, a body that returns has appended at most five
    alerts after the ones it was given. *)
Lemma trendBody_appends (prev curr : Reading.t) (acc l out : list Alert.t) :
  trendBody prev curr (acc ++ l) = Return out ->
  exists new, out = acc ++ new
              /\ (List.length l <= List.length new <= List.length l + 5)%nat.
Proof.
  unfold trendBody.
  destruct (Reading.qsofaScore curr >? Reading.qsofaScore prev);
    destruct (Reading.qsofaScore curr >=? 2);
    destruct (Js.ge (Reading.respiratoryRate curr) (Js.num 22)
              && Js.lt (Reading.respiratoryRate prev) (Js.num 22));
    destruct (Js.le (Reading.systolicBP curr) (Js.num 100)
              && Js.gt (Reading.systolicBP prev) (Js.num 100));
    (destruct (Reading.mentalStatus prev) as [| | sp];
     cbn [Js.toLowerCase Js.bind]; try discriminate;
     destruct (String.eqb (Js.lowerString sp) "alert");
     cbn [Js.and_then Js.bind];
     [destruct (Reading.mentalStatus curr) as [| | sc];
      cbn [Js.toLowerCase Js.bind]; try discriminate;
      destruct (String.eqb (Js.lowerString sc) "alert"); cbn [negb]
     |]);
    intros [= <-]; rewrite ?push_app;
    (eexists; split; [reflexivity | rewrite ?length_push; lia]).
Qed.

(** ** The loop over a history whose statuses are all strings *)

Section TrendLoop.

Variable rs : list Reading.t.
Hypothesis statuses : forallb hasStringStatus rs = true.

Lemma status_at (i : nat) (r : Reading.t) :
  nth_error rs i = Some r -> hasStringStatus r = true.
Proof.
  intros E. rewrite forallb_forall in statuses.
  apply statuses. eapply nth_error_In; eassumption.
Qed.

Lemma index_in_range (i : nat) :
  (i < List.length rs)%nat ->
  exists r, nth_error rs i = Some r /\ Js.index rs i = Return r.
Proof.
  intros Hi. unfold Js.index.
  destruct (nth_error rs i) as [r|] eqn:E.
  - exists r. split; reflexivity.
  - apply nth_error_None in E. lia.
Qed.

Lemma trendIteration_spec (i : nat) (acc : list Alert.t) :
  (1 <= i < List.length rs)%nat ->
  trendIteration rs i acc = Return (acc ++ spec_alertsAt rs i).
Proof.
  intros [Hlo Hhi].
  destruct (index_in_range (i - 1)) as (p & Ep & Ip); [lia|].
  destruct (index_in_range i) as (c & Ec & Ic); [lia|].
  unfold trendIteration, spec_alertsAt.
  rewrite Ip, Ic, Ep, Ec. cbn [Js.bind].
  apply trendBody_spec; eapply status_at; eassumption.
Qed.

Lemma forLoop_trend (count : nat) :
  forall (i : nat) (acc : list Alert.t),
    (1 <= i)%nat -> (i + count <= List.length rs)%nat ->
    forLoop (trendIteration rs) i count acc
    = Return (acc ++ flat_map (spec_alertsAt rs) (seq i count)).
Proof.
  induction count as [|count IH]; intros i acc Hlo Hhi.
  - cbn. now rewrite app_nil_r.
  - cbn [forLoop seq flat_map].
    rewrite trendIteration_spec by lia. cbn [Js.bind].
    rewrite IH by lia. now rewrite app_assoc.
Qed.

Lemma trendAlerts_spec : trendAlerts rs = Return (spec_alerts rs).
Proof.
  unfold trendAlerts, spec_alerts.
  destruct (Nat.eq_dec (List.length rs) 0) as [E|E].
  - rewrite E. reflexivity.
  - rewrite forLoop_trend; [reflexivity | lia | lia].
Qed.

Lemma summary_alerts :
  exists s, summary rs = Return s /\ alerts s = spec_alerts rs.
Proof.
  unfold summary.
  destruct (List.length rs =? 0)%nat eqn:E.
  - apply Nat.eqb_eq in E. apply length_zero_iff_nil in E.
    rewrite E. eexists; split; reflexivity.
  - apply Nat.eqb_neq in E. rewrite trendAlerts_spec. cbn [Js.bind].
    destruct (index_in_range (List.length rs - 1)) as (r & _ & Ir); [lia|].
    rewrite Ir. eexists; split; reflexivity.
Qed.

End TrendLoop.

Lemma spec_alerts_three (r0 r1 r2 : Reading.t) :
  spec_alerts [r0; r1; r2] = spec_pairAlerts r0 r1 ++ spec_pairAlerts r1 r2.
Proof.
  unfold spec_alerts, spec_alertsAt.
  cbn [List.length Nat.sub seq flat_map nth_error]. now rewrite app_nil_r.
Qed.

(** ** A history with a missing status *)

Lemma trendBody_absent_prev (prev curr : Reading.t) (acc : list Alert.t) :
  absent (Reading.mentalStatus prev) ->
  trendBody prev curr acc = Throw TypeError.
Proof. unfold trendBody. intros [-> | ->]; reflexivity. Qed.

Lemma forLoop_throws (rs : list Reading.t) (k : nat) (r : Reading.t) :
  nth_error rs k = Some r -> absent (Reading.mentalStatus r) ->
  (k + 1 < List.length rs)%nat ->
  forall (count i : nat) (acc : list Alert.t),
    (1 <= i <= k + 1)%nat -> (k + 1 < i + count)%nat ->
    forLoop (trendIteration rs) i count acc = Throw TypeError.
Proof.
  intros Ek Habs Hk.
  induction count as [|count IH]; intros i acc Hi Hcount; [lia|].
  cbn [forLoop].
  destruct (Nat.eq_dec i (k + 1)) as [->|Hne].
  - unfold trendIteration, Js.index.
    replace (k + 1 - 1)%nat with k by lia. rewrite Ek.
    destruct (nth_error rs (k + 1)) as [c|] eqn:Ec.
    + cbn [Js.bind]. now rewrite trendBody_absent_prev.
    + apply nth_error_None in Ec. lia.
  - destruct (trendIteration rs i acc) as [acc'|[]]; cbn [Js.bind].
    + apply IH; lia.
    + reflexivity.
Qed.

(** ** The trend derivation *)

(** C2, as amended: for every adjacent pair the loop body appends at most
    five alerts after the ones already collected, one per rule. *)
Theorem pair_appends_at_most_five (prev curr : Reading.t) (acc out : list Alert.t) :
  trendBody prev curr acc = Return out ->
  exists new, out = acc ++ new /\ (List.length new <= 5)%nat.
Proof.
  intros H.
  pose proof (trendBody_appends prev curr acc [] out) as Happ.
  rewrite app_nil_r in Happ.
  destruct (Happ H) as (new & -> & Hlen).
  exists new. split; [reflexivity | cbn in Hlen; lia].
Qed.

Lemma pair_appends_at_most_five_witness :
  exists new, spec_pairAlerts calmReading septicReading = [] ++ new
              /\ (List.length new <= 5)%nat.
Proof.
  apply (pair_appends_at_most_five calmReading septicReading []).
  reflexivity.
Defined.

(** C2, as stated, fails: the readings stored for (18, 120, "Alert") and
    then (25, 90, "Confused") form one pair for which all five rules fire,
    so five alerts are appended, not at most four. *)
Lemma five_alerts_for_one_pair :
  createReading (obs 18 120 "Alert") 0 = Return calmReading
  /\ createReading (obs 25 90 "Confused") 900000 = Return septicReading
  /\ exists new,
      trendBody calmReading septicReading [] = Return new
      /\ trendAlerts [calmReading; septicReading] = Return new
      /\ map Alert.type new
         = ["Risk escalating"; "High risk screening score";
            "Respiratory rate threshold crossed";
            "Blood pressure threshold crossed"; "Change in mental status"]
      /\ ~ (List.length new <= 4)%nat.
Proof.
  split; [reflexivity|]. split; [reflexivity|].
  exists (spec_pairAlerts calmReading septicReading).
  repeat split; try reflexivity.
  replace (List.length (spec_pairAlerts calmReading septicReading))
    with 5%nat by reflexivity.
  lia.
Qed.

(** C3: "High risk screening score" is a level check: for every adjacent
    pair it fires exactly when the current score is at least 2, whatever
    the previous score; three readings scored 2, 2, 2 give exactly two such
    alerts, one per pair. *)
Theorem high_risk_is_level_check :
  (forall prev curr acc,
      hasStringStatus prev = true -> hasStringStatus curr = true ->
      exists new,
        trendBody prev curr acc = Return (acc ++ new)
        /\ countType "High risk screening score" new
           = if Reading.qsofaScore curr >=? 2 then 1%nat else 0%nat)
  /\ (forall r0 r1 r2,
        forallb hasStringStatus [r0; r1; r2] = true ->
        Reading.qsofaScore r0 = 2 -> Reading.qsofaScore r1 = 2 ->
        Reading.qsofaScore r2 = 2 ->
        exists alerts,
          trendAlerts [r0; r1; r2] = Return alerts
          /\ ofTypes ["High risk screening score"] alerts
             = [highRiskAlert r1; highRiskAlert r2]).
Proof.
  split.
  - intros prev curr acc Hp Hc. exists (spec_pairAlerts prev curr).
    split; [now apply trendBody_spec|].
    change "High risk screening score"
      with (Alert.type (spec_alert HighRisk prev curr)).
    rewrite countType_pairAlerts. cbn [spec_fires]. now rewrite Z.geb_leb.
  - intros r0 r1 r2 Hs H0 H1 H2. exists (spec_alerts [r0; r1; r2]).
    split; [now apply trendAlerts_spec|].
    rewrite spec_alerts_three. unfold spec_pairAlerts, spec_rules. cbn [filter].
    assert (spec_fires HighRisk r0 r1 = true) as -> by (cbn; now rewrite H1).
    assert (spec_fires HighRisk r1 r2 = true) as -> by (cbn; now rewrite H2).
    case_fires; reflexivity.
Qed.

Lemma high_risk_is_level_check_witness :
  (exists new,
      trendBody (reading 25 90 (Str "Confused") 0 2)
        (reading 25 90 (Str "Confused") 1 2) [] = Return ([] ++ new)
      /\ countType "High risk screening score" new = 1%nat)
  /\ exists alerts,
      trendAlerts [reading 25 90 (Str "Confused") 0 2;
                   reading 25 90 (Str "Confused") 1 2;
                   reading 25 90 (Str "Confused") 2 2] = Return alerts
      /\ ofTypes ["High risk screening score"] alerts
         = [highRiskAlert (reading 25 90 (Str "Confused") 1 2);
            highRiskAlert (reading 25 90 (Str "Confused") 2 2)].
Proof.
  destruct high_risk_is_level_check as [Hpair Hthree]. split.
  - apply (Hpair (reading 25 90 (Str "Confused") 0 2)
             (reading 25 90 (Str "Confused") 1 2) []); reflexivity.
  - apply Hthree; reflexivity.
Defined.

(** C4: for a history of readings the alerts are the concatenation, over
    the pair indices 1 .. n-1 in that order, of the alerts of the rules that
    hold for the pair, within a pair in declaration order and never sorted
    by severity; an empty or one-element history gives no alert; scores
    0, 1, 2 give "Risk escalating" (0 to 1), "Risk escalating" (1 to 2) and
    "High risk screening score", in that order. *)
Theorem alerts_are_concatenated_in_rule_order :
  (forall rs,
      forallb hasStringStatus rs = true ->
      trendAlerts rs = Return (spec_alerts rs)
      /\ exists s, summary rs = Return s /\ alerts s = spec_alerts rs)
  /\ trendAlerts [] = Return []
  /\ summary [] = Return (mkSummary [] [] None)
  /\ (forall r, trendAlerts [r] = Return []
                /\ exists s, summary [r] = Return s /\ alerts s = [])
  /\ (forall r0 r1 r2,
        forallb hasStringStatus [r0; r1; r2] = true ->
        Reading.qsofaScore r0 = 0 -> Reading.qsofaScore r1 = 1 ->
        Reading.qsofaScore r2 = 2 ->
        exists alerts,
          trendAlerts [r0; r1; r2] = Return alerts
          /\ ofTypes ["Risk escalating"; "High risk screening score"] alerts
             = [riskEscalatingAlert r0 r1; riskEscalatingAlert r1 r2;
                highRiskAlert r2]
          /\ Alert.explanation (riskEscalatingAlert r0 r1)
             = "qSOFA screening score increased from 0 to 1 between readings."
          /\ Alert.explanation (riskEscalatingAlert r1 r2)
             = "qSOFA screening score increased from 1 to 2 between readings.")
  /\ (exists alerts,
        trendAlerts [calmReading; septicReading] = Return alerts
        /\ map Alert.level alerts
           = ["warning"; "high"; "warning"; "warning"; "high"]).
Proof.
  split; [|split; [|split; [|split; [|split]]]].
  - intros rs Hs. split; [now apply trendAlerts_spec | now apply summary_alerts].
  - reflexivity.
  - reflexivity.
  - intros r. split; [reflexivity|]. eexists; split; reflexivity.
  - intros r0 r1 r2 Hs H0 H1 H2. exists (spec_alerts [r0; r1; r2]).
    split; [now apply trendAlerts_spec|].
    split; [|split].
    + rewrite spec_alerts_three. unfold spec_pairAlerts, spec_rules. cbn [filter].
      assert (spec_fires RiskEscalating r0 r1 = true) as ->
          by (cbn; now rewrite H0, H1).
      assert (spec_fires HighRisk r0 r1 = false) as -> by (cbn; now rewrite H1).
      assert (spec_fires RiskEscalating r1 r2 = true) as ->
          by (cbn; now rewrite H1, H2).
      assert (spec_fires HighRisk r1 r2 = true) as -> by (cbn; now rewrite H2).
      case_fires; reflexivity.
    + unfold riskEscalatingAlert. cbn [Alert.explanation]. now rewrite H0, H1.
    + unfold riskEscalatingAlert. cbn [Alert.explanation]. now rewrite H1, H2.
  - eexists; split; reflexivity.
Qed.

Lemma alerts_are_concatenated_in_rule_order_witness :
  trendAlerts [reading 18 120 (Str "Alert") 0 0;
               reading 23 120 (Str "Alert") 1 1;
               reading 23 95 (Str "Alert") 2 2]
  = Return (spec_alerts [reading 18 120 (Str "Alert") 0 0;
                         reading 23 120 (Str "Alert") 1 1;
                         reading 23 95 (Str "Alert") 2 2])
  /\ exists alerts,
      trendAlerts [reading 18 120 (Str "Alert") 0 0;
                   reading 23 120 (Str "Alert") 1 1;
                   reading 23 95 (Str "Alert") 2 2] = Return alerts
      /\ map Alert.type
           (ofTypes ["Risk escalating"; "High risk screening score"] alerts)
         = ["Risk escalating"; "Risk escalating"; "High risk screening score"].
Proof.
  destruct alerts_are_concatenated_in_rule_order
    as (Hspec & _ & _ & _ & Hthree & _).
  split.
  - apply Hspec. reflexivity.
  - destruct (Hthree (reading 18 120 (Str "Alert") 0 0)
                (reading 23 120 (Str "Alert") 1 1)
                (reading 23 95 (Str "Alert") 2 2))
      as (alerts & Hrun & Hsel & _); try reflexivity.
    exists alerts. split; [exact Hrun|]. rewrite Hsel. reflexivity.
Defined.

(** C5: the respiratory-rate and blood-pressure alerts are strict edge
    triggers: for every adjacent pair the first fires exactly when the
    current rate is >= 22 and the previous one < 22, the second exactly when
    the current pressure is <= 100 and the previous one > 100; neither
    fires while the previous value is already past the threshold, nor on
    the reverse crossing; rates 25, 25, 25 give no respiratory-rate alert. *)
Theorem threshold_alerts_are_edge_triggers :
  (forall prev curr acc,
      hasStringStatus prev = true -> hasStringStatus curr = true ->
      exists new,
        trendBody prev curr acc = Return (acc ++ new)
        /\ countType "Respiratory rate threshold crossed" new
           = (if Js.ge (Reading.respiratoryRate curr) (Js.num 22)
                 && Js.lt (Reading.respiratoryRate prev) (Js.num 22)
              then 1%nat else 0%nat)
        /\ countType "Blood pressure threshold crossed" new
           = (if Js.le (Reading.systolicBP curr) (Js.num 100)
                 && Js.gt (Reading.systolicBP prev) (Js.num 100)
              then 1%nat else 0%nat)
        /\ (Js.ge (Reading.respiratoryRate prev) (Js.num 22) = true ->
            countType "Respiratory rate threshold crossed" new = 0%nat)
        /\ (Js.lt (Reading.respiratoryRate curr) (Js.num 22) = true ->
            countType "Respiratory rate threshold crossed" new = 0%nat)
        /\ (Js.le (Reading.systolicBP prev) (Js.num 100) = true ->
            countType "Blood pressure threshold crossed" new = 0%nat)
        /\ (Js.gt (Reading.systolicBP curr) (Js.num 100) = true ->
            countType "Blood pressure threshold crossed" new = 0%nat))
  /\ (forall r0 r1 r2,
        forallb hasStringStatus [r0; r1; r2] = true ->
        Reading.respiratoryRate r0 = Js.num 25 ->
        Reading.respiratoryRate r1 = Js.num 25 ->
        Reading.respiratoryRate r2 = Js.num 25 ->
        exists alerts,
          trendAlerts [r0; r1; r2] = Return alerts
          /\ countType "Respiratory rate threshold crossed" alerts = 0%nat).
Proof.
  split.
  - intros prev curr acc Hp Hc. exists (spec_pairAlerts prev curr).
    split; [now apply trendBody_spec|].
    change "Respiratory rate threshold crossed"
      with (Alert.type (spec_alert RespiratoryRateCrossed prev curr)).
    change "Blood pressure threshold crossed"
      with (Alert.type (spec_alert BloodPressureCrossed prev curr)).
    rewrite !countType_pairAlerts. cbn [spec_fires].
    repeat split; try reflexivity; intros H.
    + rewrite (ge_true_lt_false _ _ H), andb_false_r. reflexivity.
    + rewrite (lt_true_ge_false _ _ H). reflexivity.
    + rewrite (le_true_gt_false _ _ H), andb_false_r. reflexivity.
    + rewrite (gt_true_le_false _ _ H). reflexivity.
  - intros r0 r1 r2 Hs H0 H1 H2. exists (spec_alerts [r0; r1; r2]).
    split; [now apply trendAlerts_spec|].
    rewrite spec_alerts_three, countType_app.
    change "Respiratory rate threshold crossed"
      with (Alert.type (spec_alert RespiratoryRateCrossed r0 r1)) at 1.
    change "Respiratory rate threshold crossed"
      with (Alert.type (spec_alert RespiratoryRateCrossed r1 r2)).
    rewrite !countType_pairAlerts. cbn [spec_fires].
    rewrite H0, H1, H2. reflexivity.
Qed.

Lemma threshold_alerts_are_edge_triggers_witness :
  (exists new,
      trendBody (reading 25 90 (Str "Alert") 0 2)
        (reading 20 110 (Str "Alert") 1 0) [] = Return ([] ++ new)
      /\ countType "Respiratory rate threshold crossed" new = 0%nat
      /\ countType "Blood pressure threshold crossed" new = 0%nat)
  /\ exists alerts,
      trendAlerts [reading 25 120 (Str "Alert") 0 1;
                   reading 25 120 (Str "Alert") 1 1;
                   reading 25 120 (Str "Alert") 2 1] = Return alerts
      /\ countType "Respiratory rate threshold crossed" alerts = 0%nat.
Proof.
  destruct threshold_alerts_are_edge_triggers as [Hpair Hthree]. split.
  - destruct (Hpair (reading 25 90 (Str "Alert") 0 2)
                (reading 20 110 (Str "Alert") 1 0) [])
      as (new & Hrun & _ & _ & Hrr & _ & Hbp & _); try reflexivity.
    exists new. split; [exact Hrun|].
    split; [apply Hrr | apply Hbp]; reflexivity.
  - apply Hthree; reflexivity.
Defined.

(** C6: "Change in mental status" fires for an adjacent pair exactly when
    the previous status equals 'alert' whatever the casing and the current
    one does not; it never fires on the way back, so the statuses "Alert",
    "Confused", "Alert" give exactly one such alert, at the second reading. *)
Theorem mental_status_alert_on_deterioration_only :
  (forall prev curr acc,
      hasStringStatus prev = true -> hasStringStatus curr = true ->
      exists new,
        trendBody prev curr acc = Return (acc ++ new)
        /\ countType "Change in mental status" new
           = (if isAlert (Reading.mentalStatus prev)
                 && negb (isAlert (Reading.mentalStatus curr))
              then 1%nat else 0%nat)
        /\ (isAlert (Reading.mentalStatus curr) = true ->
            countType "Change in mental status" new = 0%nat))
  /\ (forall r0 r1 r2,
        Reading.mentalStatus r0 = Str "Alert" ->
        Reading.mentalStatus r1 = Str "Confused" ->
        Reading.mentalStatus r2 = Str "Alert" ->
        exists alerts,
          trendAlerts [r0; r1; r2] = Return alerts
          /\ ofTypes ["Change in mental status"] alerts = [mentalStatusAlert r1]
          /\ countType "Change in mental status" (spec_pairAlerts r0 r1) = 1%nat
          /\ countType "Change in mental status" (spec_pairAlerts r1 r2) = 0%nat).
Proof.
  split.
  - intros prev curr acc Hp Hc. exists (spec_pairAlerts prev curr).
    split; [now apply trendBody_spec|].
    change "Change in mental status"
      with (Alert.type (spec_alert MentalStatusChanged prev curr)).
    rewrite !countType_pairAlerts. cbn [spec_fires].
    split; [reflexivity|]. intros ->. now rewrite andb_false_r.
  - intros r0 r1 r2 H0 H1 H2. exists (spec_alerts [r0; r1; r2]).
    assert (forallb hasStringStatus [r0; r1; r2] = true) as Hs
        by (unfold hasStringStatus; cbn [forallb]; now rewrite H0, H1, H2).
    split; [now apply trendAlerts_spec|].
    assert (spec_fires MentalStatusChanged r0 r1 = true) as F01
        by (cbn [spec_fires]; now rewrite H0, H1).
    assert (spec_fires MentalStatusChanged r1 r2 = false) as F12
        by (cbn [spec_fires]; now rewrite H1, H2).
    split; [|split].
    + rewrite spec_alerts_three. unfold spec_pairAlerts, spec_rules.
      cbn [filter]. rewrite F01, F12. case_fires; reflexivity.
    + change "Change in mental status"
        with (Alert.type (spec_alert MentalStatusChanged r0 r1)).
      now rewrite countType_pairAlerts, F01.
    + change "Change in mental status"
        with (Alert.type (spec_alert MentalStatusChanged r1 r2)).
      now rewrite countType_pairAlerts, F12.
Qed.

Lemma mental_status_alert_on_deterioration_only_witness :
  (exists new,
      trendBody (reading 18 120 (Str "Confused") 0 1)
        (reading 18 120 (Str "ALERT") 1 0) [] = Return ([] ++ new)
      /\ countType "Change in mental status" new = 0%nat)
  /\ exists alerts,
      trendAlerts [reading 18 120 (Str "Alert") 0 0;
                   reading 18 120 (Str "Confused") 1 1;
                   reading 18 120 (Str "Alert") 2 0] = Return alerts
      /\ ofTypes ["Change in mental status"] alerts
         = [mentalStatusAlert (reading 18 120 (Str "Confused") 1 1)].
Proof.
  destruct mental_status_alert_on_deterioration_only as [Hpair Hthree]. split.
  - destruct (Hpair (reading 18 120 (Str "Confused") 0 1)
                (reading 18 120 (Str "ALERT") 1 0) [])
      as (new & Hrun & _ & Hback); try reflexivity.
    exists new. split; [exact Hrun | apply Hback; reflexivity].
  - destruct (Hthree (reading 18 120 (Str "Alert") 0 0)
                (reading 18 120 (Str "Confused") 1 1)
                (reading 18 120 (Str "Alert") 2 0))
      as (alerts & Hrun & Hsel & _); try reflexivity.
    exists alerts. split; assumption.
Defined.

(** C10: calculateQSOFA guards the status comparison and returns for every
    observation, but the trend loop calls toLowerCase unguarded: it returns
    whenever every status is a string, and throws as soon as a reading other
    than the last has no status, as for the history made of a status-less
    document followed by an ordinary one, whose own observation
    calculateQSOFA scores normally. *)
Theorem trend_needs_string_statuses :
  (forall o, exists r, calculateQSOFA o = Return r)
  /\ (forall rs, forallb hasStringStatus rs = true ->
        exists alerts, trendAlerts rs = Return alerts)
  /\ (forall rs k r,
        nth_error rs k = Some r -> absent (Reading.mentalStatus r) ->
        (k + 1 < List.length rs)%nat ->
        trendAlerts rs = Throw TypeError /\ summary rs = Throw TypeError)
  /\ trendAlerts [statuslessReading; calmReading] = Throw TypeError
  /\ calculateQSOFA
       (mkObservation (Reading.respiratoryRate statuslessReading)
          (Reading.systolicBP statuslessReading)
          (Reading.mentalStatus statuslessReading))
     = Return (mkScoreResult 0 "Low screening score" []).
Proof.
  split; [|split; [|split; [|split]]].
  - intros o. eexists. apply calculateQSOFA_spec_score.
  - intros rs Hs. eexists. now apply trendAlerts_spec.
  - intros rs k r Ek Habs Hk.
    assert (trendAlerts rs = Throw TypeError) as Hthrow.
    { unfold trendAlerts. apply (forLoop_throws rs k r); auto; lia. }
    split; [exact Hthrow|]. unfold summary.
    destruct (List.length rs =? 0)%nat eqn:E.
    + apply Nat.eqb_eq in E. lia.
    + now rewrite Hthrow.
  - reflexivity.
  - reflexivity.
Qed.

Lemma trend_needs_string_statuses_witness :
  (exists alerts, trendAlerts [calmReading; septicReading] = Return alerts)
  /\ trendAlerts [calmReading; statuslessReading; septicReading]
     = Throw TypeError.
Proof.
  destruct trend_needs_string_statuses as (_ & Hok & Hthrow & _). split.
  - apply Hok. reflexivity.
  - apply (Hthrow [calmReading; statuslessReading; septicReading] 1%nat
             statuslessReading).
    + reflexivity.
    + left. reflexivity.
    + cbn. lia.
Defined.

(** * Further properties of the handlers *)

(** ** The loop, whatever the statuses *)

(** The body either throws on the status comparison or appends the alerts
    of the rules that fire. *)
Lemma trendBody_exact (prev curr : Reading.t) (acc : list Alert.t) :
  trendBody prev curr acc
  = if evaluable prev curr
    then Return (acc ++ spec_pairAlerts prev curr)
    else Throw TypeError.
Proof.
  unfold evaluable.
  destruct (hasStringStatus prev) eqn:Hp; cbn [andb].
  - destruct (hasStringStatus curr) eqn:Hc.
    + rewrite orb_true_r. now apply trendBody_spec.
    + destruct (hasStringStatus_Str prev Hp) as [sp Ep].
      unfold trendBody, spec_pairAlerts, spec_rules.
      cbn [filter spec_fires].
      unfold hasStringStatus in Hc.
      rewrite Ep, Z.gtb_ltb, Z.geb_leb.
      cbn [Js.toLowerCase Js.bind isAlert].
      destruct (String.eqb (Js.lowerString sp) "alert"); cbn [Js.and_then negb orb andb].
      * destruct (Reading.mentalStatus curr); try discriminate; reflexivity.
      * destruct (Reading.qsofaScore prev <? Reading.qsofaScore curr);
          destruct (2 <=? Reading.qsofaScore curr);
          destruct (Js.ge (Reading.respiratoryRate curr) (Js.num 22)
                    && Js.lt (Reading.respiratoryRate prev) (Js.num 22));
          destruct (Js.le (Reading.systolicBP curr) (Js.num 100)
                    && Js.gt (Reading.systolicBP prev) (Js.num 100));
          cbn [Js.bind map spec_alert]; unfold push;
          cbn [app]; repeat rewrite <- app_assoc; cbn [app]; rewrite ?app_nil_r;
          reflexivity.
  - unfold hasStringStatus in Hp. unfold trendBody.
    destruct (Reading.mentalStatus prev); try discriminate; reflexivity.
Qed.

Lemma trendIteration_exact (rs : list Reading.t) (i : nat) (acc : list Alert.t) :
  (1 <= i < List.length rs)%nat ->
  trendIteration rs i acc
  = if evaluableAt rs i
    then Return (acc ++ spec_alertsAt rs i)
    else Throw TypeError.
Proof.
  intros [Hlo Hhi]. unfold trendIteration, evaluableAt, spec_alertsAt, Js.index.
  destruct (nth_error rs (i - 1)) as [p|] eqn:Ep;
    [|apply nth_error_None in Ep; lia].
  destruct (nth_error rs i) as [c|] eqn:Ec;
    [|apply nth_error_None in Ec; lia].
  cbn [Js.bind]. apply trendBody_exact.
Qed.

Lemma forLoop_exact (rs : list Reading.t) (count : nat) :
  forall (i : nat) (acc : list Alert.t),
    (1 <= i)%nat -> (i + count <= List.length rs)%nat ->
    forLoop (trendIteration rs) i count acc
    = if forallb (evaluableAt rs) (seq i count)
      then Return (acc ++ flat_map (spec_alertsAt rs) (seq i count))
      else Throw TypeError.
Proof.
  induction count as [|count IH]; intros i acc Hlo Hhi.
  - cbn. now rewrite app_nil_r.
  - cbn [forLoop seq flat_map forallb].
    rewrite trendIteration_exact by lia.
    destruct (evaluableAt rs i); cbn [Js.bind andb]; [|reflexivity].
    rewrite IH by lia. now rewrite app_assoc.
Qed.

Lemma trendAlerts_exact (rs : list Reading.t) :
  trendAlerts rs
  = if forallb (evaluableAt rs) (seq 1 (List.length rs - 1))
    then Return (spec_alerts rs)
    else Throw TypeError.
Proof.
  unfold trendAlerts, spec_alerts.
  destruct (Nat.eq_dec (List.length rs) 0) as [E|E].
  - rewrite E. reflexivity.
  - rewrite forLoop_exact by lia. reflexivity.
Qed.

Lemma spec_pairAlerts_length (prev curr : Reading.t) :
  (List.length (spec_pairAlerts prev curr) <= 5)%nat.
Proof.
  unfold spec_pairAlerts. rewrite length_map.
  apply (filter_length_le (fun rule => spec_fires rule prev curr) spec_rules).
Qed.

Lemma spec_pairAlerts_timestamp (prev curr : Reading.t) (a : Alert.t) :
  In a (spec_pairAlerts prev curr) ->
  Alert.timestamp a = Reading.timestamp curr.
Proof.
  unfold spec_pairAlerts. intros H. apply in_map_iff in H.
  destruct H as (rule & <- & _). destruct rule; reflexivity.
Qed.

Lemma In_spec_alertsAt (rs : list Reading.t) (i : nat) (a : Alert.t) :
  In a (spec_alertsAt rs i) ->
  exists r, nth_error rs i = Some r
            /\ Alert.timestamp a = Reading.timestamp r.
Proof.
  unfold spec_alertsAt.
  destruct (nth_error rs (i - 1)) as [p|]; [|intros []].
  destruct (nth_error rs i) as [c|]; [|intros []].
  intros H. exists c. split; [reflexivity|].
  eapply spec_pairAlerts_timestamp; eassumption.
Qed.

Lemma spec_alertsAt_length (rs : list Reading.t) (i : nat) :
  (List.length (spec_alertsAt rs i) <= 5)%nat.
Proof.
  unfold spec_alertsAt.
  destruct (nth_error rs (i - 1)); [|cbn; lia].
  destruct (nth_error rs i); [apply spec_pairAlerts_length | cbn; lia].
Qed.

Lemma flat_map_length_bound {A B : Type} (f : A -> list B) (k : nat) (l : list A) :
  (forall a, List.length (f a) <= k)%nat ->
  (List.length (flat_map f l) <= k * List.length l)%nat.
Proof.
  intros Hf. induction l as [|a l IH]; cbn [flat_map List.length]; [lia|].
  rewrite length_app. specialize (Hf a). lia.
Qed.

(** ** Ordered timestamps *)

Lemma StronglySorted_app (l1 l2 : list Z) :
  StronglySorted Z.le l1 -> StronglySorted Z.le l2 ->
  (forall x y, In x l1 -> In y l2 -> x <= y) ->
  StronglySorted Z.le (l1 ++ l2).
Proof.
  intros H1 H2 Hcross. induction H1 as [|x l1 Hl1 IH Hx]; cbn [app]; [exact H2|].
  constructor.
  - apply IH. intros a b Ha Hb. apply Hcross; [now right | exact Hb].
  - apply Forall_app. split; [exact Hx|].
    apply Forall_forall. intros y Hy. apply Hcross; [now left | exact Hy].
Qed.

Lemma StronglySorted_constant (t : Z) (l : list Z) :
  (forall x, In x l -> x = t) -> StronglySorted Z.le l.
Proof.
  induction l as [|x l IH]; intros Hall; constructor.
  - apply IH. intros y Hy. apply Hall. now right.
  - apply Forall_forall. intros y Hy.
    rewrite (Hall x (or_introl eq_refl)), (Hall y (or_intror Hy)). lia.
Qed.

Lemma timestamps_ordered (rs : list Reading.t) :
  StronglySorted Z.le (map Reading.timestamp rs) ->
  forall i j ri rj,
    (i <= j)%nat -> nth_error rs i = Some ri -> nth_error rs j = Some rj ->
    Reading.timestamp ri <= Reading.timestamp rj.
Proof.
  induction rs as [|r rs IH]; intros Hs i j ri rj Hij Ei Ej.
  - destruct i; discriminate.
  - cbn [map] in Hs. apply StronglySorted_inv in Hs. destruct Hs as [Hs Hr].
    destruct i as [|i], j as [|j]; cbn [nth_error] in Ei, Ej; try lia.
    + injection Ei as <-. injection Ej as <-. lia.
    + injection Ei as <-. rewrite Forall_forall in Hr. apply Hr.
      apply in_map. eapply nth_error_In; eassumption.
    + apply (IH Hs i j); auto; lia.
Qed.

Lemma alert_timestamps_sorted (rs : list Reading.t) :
  StronglySorted Z.le (map Reading.timestamp rs) ->
  forall count i,
    StronglySorted Z.le
      (map Alert.timestamp (flat_map (spec_alertsAt rs) (seq i count))).
Proof.
  intros Hs. induction count as [|count IH]; intros i; [constructor|].
  cbn [seq flat_map]. rewrite map_app.
  apply StronglySorted_app; [|apply IH|].
  - destruct (nth_error rs i) as [c|] eqn:Ec.
    + apply (StronglySorted_constant (Reading.timestamp c)).
      intros x Hx. apply in_map_iff in Hx. destruct Hx as (a & <- & Ha).
      destruct (In_spec_alertsAt rs i a Ha) as (r & Er & ->). congruence.
    + unfold spec_alertsAt. rewrite Ec.
      destruct (nth_error rs (i - 1)); constructor.
  - intros x y Hx Hy.
    apply in_map_iff in Hx. destruct Hx as (a & <- & Ha).
    apply in_map_iff in Hy. destruct Hy as (b & <- & Hb).
    apply in_flat_map in Hb. destruct Hb as (j & Hj & Hb).
    apply in_seq in Hj.
    destruct (In_spec_alertsAt rs i a Ha) as (ri & Ei & ->).
    destruct (In_spec_alertsAt rs j b Hb) as (rj & Ej & ->).
    apply (timestamps_ordered rs Hs i j); auto; lia.
Qed.

Lemma trendAlerts_returns (rs : list Reading.t) (alerts : list Alert.t) :
  trendAlerts rs = Return alerts -> alerts = spec_alerts rs.
Proof.
  rewrite trendAlerts_exact.
  destruct (forallb _ _); [congruence | discriminate].
Qed.

(** X1: the alert loop returns exactly when the status comparison of every
    adjacent pair can be evaluated, and then yields the rule-ordered
    concatenation; otherwise some pair is at fault and both the loop and the
    summary throw a TypeError. *)
Theorem trend_outcome (rs : list Reading.t) :
  ((forall i p c,
       (1 <= i)%nat -> nth_error rs (i - 1) = Some p -> nth_error rs i = Some c ->
       evaluable p c = true)
   /\ trendAlerts rs = Return (spec_alerts rs))
  \/ ((exists i p c,
          (1 <= i)%nat /\ nth_error rs (i - 1) = Some p /\ nth_error rs i = Some c
          /\ evaluable p c = false)
      /\ trendAlerts rs = Throw TypeError
      /\ summary rs = Throw TypeError).
Proof.
  pose proof (trendAlerts_exact rs) as Hrun.
  destruct (forallb (evaluableAt rs) (seq 1 (List.length rs - 1))) eqn:Hall.
  - left. split; [|exact Hrun].
    intros i p c Hi Ep Ec. rewrite forallb_forall in Hall.
    assert (i < List.length rs)%nat
      by (apply nth_error_Some; rewrite Ec; discriminate).
    specialize (Hall i). unfold evaluableAt in Hall. rewrite Ep, Ec in Hall.
    apply Hall. apply in_seq. lia.
  - right.
    assert (exists i, In i (seq 1 (List.length rs - 1))
                      /\ evaluableAt rs i = false) as (i & Hi & Hbad).
    { clear Hrun. induction (seq 1 (List.length rs - 1)) as [|j l IH];
        [discriminate|].
      cbn [forallb] in Hall. destruct (evaluableAt rs j) eqn:Ej.
      - destruct (IH Hall) as (i & Hi & Hbad). exists i. split; [now right | exact Hbad].
      - exists j. split; [now left | exact Ej]. }
    apply in_seq in Hi. split; [|split].
    + unfold evaluableAt in Hbad.
      destruct (nth_error rs (i - 1)) as [p|] eqn:Ep;
        [|apply nth_error_None in Ep; lia].
      destruct (nth_error rs i) as [c|] eqn:Ec;
        [|apply nth_error_None in Ec; lia].
      exists i, p, c. repeat split; auto; lia.
    + exact Hrun.
    + unfold summary. destruct (List.length rs =? 0)%nat eqn:E.
      * apply Nat.eqb_eq in E. lia.
      * now rewrite Hrun.
Qed.

(** X2: a history of n readings never yields more than 5 (n - 1) alerts. *)
Theorem alert_count_bound (rs : list Reading.t) (alerts : list Alert.t) :
  trendAlerts rs = Return alerts ->
  (List.length alerts <= 5 * (List.length rs - 1))%nat.
Proof.
  intros H. rewrite (trendAlerts_returns rs alerts H). unfold spec_alerts.
  pose proof (flat_map_length_bound (spec_alertsAt rs) 5
                (seq 1 (List.length rs - 1)) (spec_alertsAt_length rs)) as Hb.
  now rewrite length_seq in Hb.
Qed.

Lemma alert_count_bound_witness :
  (List.length (spec_alerts [calmReading; septicReading]) <= 5 * (2 - 1))%nat.
Proof.
  apply (alert_count_bound [calmReading; septicReading]). reflexivity.
Defined.

(** X3: every alert carries the timestamp of a reading other than the
    first, and when the readings come in ascending timestamp order, as the
    handler queries them, so do the alerts. *)
Theorem alerts_are_chronological (rs : list Reading.t) (alerts : list Alert.t) :
  trendAlerts rs = Return alerts ->
  (forall a, In a alerts ->
             exists i r, (1 <= i)%nat /\ nth_error rs i = Some r
                         /\ Alert.timestamp a = Reading.timestamp r)
  /\ (Sorted Z.le (map Reading.timestamp rs) ->
      Sorted Z.le (map Alert.timestamp alerts)).
Proof.
  intros H. rewrite (trendAlerts_returns rs alerts H). split.
  - intros a Ha. unfold spec_alerts in Ha. apply in_flat_map in Ha.
    destruct Ha as (i & Hi & Ha). apply in_seq in Hi.
    destruct (In_spec_alertsAt rs i a Ha) as (r & Er & Et).
    exists i, r. repeat split; auto; lia.
  - intros Hs. apply StronglySorted_Sorted. apply alert_timestamps_sorted.
    apply Sorted_StronglySorted; [|exact Hs].
    intros x y z. apply Z.le_trans.
Qed.

Lemma alerts_are_chronological_witness :
  Sorted Z.le
    (map Alert.timestamp
       (spec_alerts [calmReading; septicReading;
                     reading 25 90 (Str "Confused") 1800000 3])).
Proof.
  apply (alerts_are_chronological
           [calmReading; septicReading;
            reading 25 90 (Str "Confused") 1800000 3]).
  - reflexivity.
  - repeat (constructor; try (cbn; lia)).
Defined.

(** ** Growing a history *)

Lemma bind_Return {A : Type} (c : Js.Completion A) :
  (a <- c ;; Return a) = c.
Proof. destruct c; reflexivity. Qed.

Lemma forLoop_snoc {S : Type} (body : nat -> S -> Js.Completion S) (count : nat) :
  forall (i : nat) (s : S),
    forLoop body i (count + 1) s
    = (s' <- forLoop body i count s ;; body (i + count)%nat s').
Proof.
  induction count as [|count IH]; intros i s.
  - cbn [forLoop Nat.add Js.bind]. rewrite Nat.add_0_r. apply bind_Return.
  - cbn [forLoop Nat.add]. destruct (body i s) as [s1|e]; cbn [Js.bind]; [|reflexivity].
    rewrite IH. now replace (Datatypes.S i + count)%nat with (i + Datatypes.S count)%nat by lia.
Qed.

Lemma forLoop_ext {S : Type} (body1 body2 : nat -> S -> Js.Completion S)
  (count : nat) :
  forall (i : nat) (s : S),
    (forall j s', (i <= j < i + count)%nat -> body1 j s' = body2 j s') ->
    forLoop body1 i count s = forLoop body2 i count s.
Proof.
  induction count as [|count IH]; intros i s Hext; [reflexivity|].
  cbn [forLoop]. rewrite Hext by lia.
  destruct (body2 i s) as [s1|e]; cbn [Js.bind]; [|reflexivity].
  apply IH. intros j s' Hj. apply Hext. lia.
Qed.

Lemma index_app_left {A : Type} (l1 l2 : list A) (i : nat) :
  (i < List.length l1)%nat -> Js.index (l1 ++ l2) i = Js.index l1 i.
Proof. intros Hi. unfold Js.index. now rewrite nth_error_app1. Qed.

(** X4: a reading added at the end of a history leaves the alerts derived
    so far untouched: the loop on the longer history is the loop on the
    shorter one followed by the body for the new pair. *)
Theorem new_reading_only_appends (rs : list Reading.t) (p c : Reading.t) :
  trendAlerts ((rs ++ [p]) ++ [c])
  = (alerts <- trendAlerts (rs ++ [p]) ;; trendBody p c alerts).
Proof.
  unfold trendAlerts.
  assert (List.length (rs ++ [p]) = (List.length rs + 1)%nat) as Hl
      by (rewrite length_app; reflexivity).
  replace (List.length ((rs ++ [p]) ++ [c]) - 1)%nat
    with ((List.length (rs ++ [p]) - 1) + 1)%nat
    by (rewrite (length_app (rs ++ [p])); cbn [List.length]; lia).
  rewrite forLoop_snoc.
  rewrite (forLoop_ext (trendIteration ((rs ++ [p]) ++ [c]))
             (trendIteration (rs ++ [p]))).
  - destruct (forLoop _ 1 _ []) as [alerts|e]; cbn [Js.bind]; [|reflexivity].
    unfold trendIteration, Js.index.
    replace (1 + (List.length (rs ++ [p]) - 1) - 1)%nat
      with (List.length rs) by lia.
    replace (1 + (List.length (rs ++ [p]) - 1))%nat
      with (List.length (rs ++ [p])) by lia.
    rewrite (nth_error_app1 (rs ++ [p])) by lia.
    rewrite (nth_error_app2 rs) by lia.
    rewrite (nth_error_app2 (rs ++ [p])) by lia.
    rewrite !Nat.sub_diag. reflexivity.
  - intros j s' Hj. unfold trendIteration.
    rewrite !(index_app_left (rs ++ [p])) by lia. reflexivity.
Qed.

(** ** Thresholds seen from both sides *)

Lemma ge_lt_same (x k : Js.Number) : Js.ge x k && Js.lt x k = false.
Proof. unfold Js.ge, Js.lt. destruct (Js.compare x k) as [[]|]; reflexivity. Qed.

Lemma le_gt_same (x k : Js.Number) : Js.le x k && Js.gt x k = false.
Proof. unfold Js.le, Js.gt. destruct (Js.compare x k) as [[]|]; reflexivity. Qed.

Lemma lt_is_not_ge (x : Js.Number) (k : Z) :
  isNaN x = false -> Js.lt x (Js.num k) = negb (Js.ge x (Js.num k)).
Proof.
  unfold Js.lt, Js.ge. destruct x; try discriminate; intros _; cbn;
    try reflexivity.
  destruct (q ?= inject_Z k)%Q; reflexivity.
Qed.

Lemma gt_is_not_le (x : Js.Number) (k : Z) :
  isNaN x = false -> Js.gt x (Js.num k) = negb (Js.le x (Js.num k)).
Proof.
  unfold Js.gt, Js.le. destruct x; try discriminate; intros _; cbn;
    try reflexivity.
  destruct (q ?= inject_Z k)%Q; reflexivity.
Qed.

(** X5: when a reading repeats the vitals, status and score of the one
    before it, the pair yields no alert at all below a score of 2, and
    only "High risk screening score" from 2 upwards. *)
Theorem unchanged_reading_alerts (prev curr : Reading.t) (acc : list Alert.t) :
  hasStringStatus prev = true ->
  Reading.respiratoryRate curr = Reading.respiratoryRate prev ->
  Reading.systolicBP curr = Reading.systolicBP prev ->
  Reading.mentalStatus curr = Reading.mentalStatus prev ->
  Reading.qsofaScore curr = Reading.qsofaScore prev ->
  trendBody prev curr acc
  = Return (acc ++ if Reading.qsofaScore curr >=? 2
                   then [highRiskAlert curr] else []).
Proof.
  intros Hp Hrr Hbp Hms Hsc.
  rewrite trendBody_spec; [|exact Hp|unfold hasStringStatus; now rewrite Hms].
  unfold spec_pairAlerts, spec_rules. cbn [filter spec_fires].
  rewrite Hrr, Hbp, Hms, Hsc, Z.ltb_irrefl, ge_lt_same, le_gt_same, andb_negb_r.
  rewrite Z.geb_leb. destruct (2 <=? Reading.qsofaScore prev); reflexivity.
Qed.

Lemma unchanged_reading_alerts_witness :
  trendBody septicReading septicReading [] = Return ([] ++ [highRiskAlert septicReading]).
Proof.
  apply (unchanged_reading_alerts septicReading septicReading []); reflexivity.
Defined.

(** X6: for a non-empty history the summary returns the readings as given,
    the alerts of the loop, and an overall section taken from the last
    reading together with the number of readings; it throws when the loop
    throws. *)
Theorem summary_reports_last_reading (rs : list Reading.t) (r : Reading.t) :
  summary (rs ++ [r])
  = (alerts <- trendAlerts (rs ++ [r]) ;;
     Return (mkSummary (rs ++ [r]) alerts
               (Some (mkOverall (Reading.qsofaScore r) (Reading.qsofaRiskLabel r)
                        (List.length rs + 1))))).
Proof.
  unfold summary.
  assert (List.length (rs ++ [r]) = (List.length rs + 1)%nat) as Hl
      by (rewrite length_app; reflexivity).
  rewrite Hl.
  replace (List.length rs + 1 =? 0)%nat with false
    by (symmetry; apply Nat.eqb_neq; lia).
  destruct (trendAlerts (rs ++ [r])) as [alerts|e]; cbn [Js.bind]; [|reflexivity].
  unfold Js.index. rewrite nth_error_app2 by lia.
  replace (List.length rs + 1 - 1 - List.length rs)%nat with 0%nat by lia.
  reflexivity.
Qed.

(** ** Alerts on readings scored by the server *)

Lemma createReading_returns (o : Observation) (ts : Z) :
  createReading o ts
  = Return (Reading.mk (respiratoryRate o) (systolicBP o) (mentalStatus o) ts
              (score (spec_score o)) (riskLabel (spec_score o))
              (reasons (spec_score o))).
Proof. unfold createReading. now rewrite calculateQSOFA_spec_score. Qed.

Lemma truthy_Str (v : Js.Value) :
  Js.truthy v = true -> exists s, v = Str s /\ String.eqb s "" = false.
Proof.
  destruct v as [| | s]; try discriminate. cbn [Js.truthy].
  intros H. exists s. split; [reflexivity|]. now apply negb_true_iff.
Qed.

(** X7: between two readings scored by the server from non-NaN vitals and
    non-empty statuses, a "Risk escalating" alert never comes alone: at
    least one of the respiratory-rate, blood-pressure and mental-status
    alerts fires for the same pair. *)
Theorem escalation_is_explained (op oc : Observation) (tp tc : Z)
  (prev curr : Reading.t) (acc : list Alert.t) :
  createReading op tp = Return prev ->
  createReading oc tc = Return curr ->
  isNaN (respiratoryRate op) = false ->
  isNaN (systolicBP op) = false ->
  Js.truthy (mentalStatus op) = true ->
  Js.truthy (mentalStatus oc) = true ->
  exists new,
    trendBody prev curr acc = Return (acc ++ new)
    /\ (countType "Risk escalating" new = 1%nat ->
        (1 <= countType "Respiratory rate threshold crossed" new
              + countType "Blood pressure threshold crossed" new
              + countType "Change in mental status" new)%nat).
Proof.
  rewrite !createReading_returns. intros [= <-] [= <-] Hrr Hbp Hsp Hsc.
  destruct (truthy_Str _ Hsp) as (sp & Ep & Np).
  destruct (truthy_Str _ Hsc) as (sc & Ec & Nc).
  match goal with
  | |- exists new, trendBody ?p ?c _ = _ /\ _ =>
      exists (spec_pairAlerts p c); split;
      [apply trendBody_spec; unfold hasStringStatus; cbn [Reading.mentalStatus];
       [now rewrite Ep | now rewrite Ec]|];
      change "Risk escalating"
        with (Alert.type (spec_alert RiskEscalating p c));
      change "Respiratory rate threshold crossed"
        with (Alert.type (spec_alert RespiratoryRateCrossed p c));
      change "Blood pressure threshold crossed"
        with (Alert.type (spec_alert BloodPressureCrossed p c));
      change "Change in mental status"
        with (Alert.type (spec_alert MentalStatusChanged p c))
  end.
  rewrite !countType_pairAlerts.
  cbn [spec_fires Reading.qsofaScore Reading.respiratoryRate Reading.systolicBP
         Reading.mentalStatus].
  rewrite (lt_is_not_ge _ 22 Hrr), (gt_is_not_le _ 100 Hbp).
  unfold spec_score. cbn [score]. rewrite Ep, Ec.
  cbn [spec_alteredMentalStatus isAlert]. rewrite Np, Nc.
  destruct (Js.ge (respiratoryRate op) (Js.num 22)),
    (Js.le (systolicBP op) (Js.num 100)),
    (String.eqb (Js.lowerString sp) "alert"),
    (Js.ge (respiratoryRate oc) (Js.num 22)),
    (Js.le (systolicBP oc) (Js.num 100)),
    (String.eqb (Js.lowerString sc) "alert");
    cbn; intros H; try discriminate H; lia.
Qed.

Lemma escalation_is_explained_witness :
  exists new,
    trendBody calmReading septicReading [] = Return ([] ++ new)
    /\ (countType "Risk escalating" new = 1%nat ->
        (1 <= countType "Respiratory rate threshold crossed" new
              + countType "Blood pressure threshold crossed" new
              + countType "Change in mental status" new)%nat).
Proof.
  apply (escalation_is_explained (obs 18 120 "Alert") (obs 25 90 "Confused")
           0 900000 calmReading septicReading []); reflexivity.
Defined.

(** ** The demo scenario *)

(** X8: whatever the clock says, the demo scenario consists of four
    readings a quarter of an hour apart, starting now, with scores 0, 0, 1
    and 3, the last one labelled "High screening score"; were they stored,
    the summary would derive from them, in this order: "Risk escalating" and
    "Respiratory rate threshold crossed" at the third reading, then "Risk
    escalating", "High risk screening score", "Blood pressure threshold
    crossed" and "Change in mental status" at the fourth. *)
Theorem demo_scenario_escalates (now : Z) :
  exists readings alerts,
    demoScenario now = Return readings
    /\ map Reading.timestamp readings
       = [now; now + 900000; now + 1800000; now + 2700000]
    /\ map Reading.qsofaScore readings = [0; 0; 1; 3]
    /\ map Reading.qsofaRiskLabel readings
       = ["Low screening score"; "Low screening score";
          "Intermediate screening score"; "High screening score"]
    /\ trendAlerts readings = Return alerts
    /\ map (fun a => (Alert.type a, Alert.timestamp a)) alerts
       = [("Risk escalating", now + 1800000);
          ("Respiratory rate threshold crossed", now + 1800000);
          ("Risk escalating", now + 2700000);
          ("High risk screening score", now + 2700000);
          ("Blood pressure threshold crossed", now + 2700000);
          ("Change in mental status", now + 2700000)].
Proof.
  set (r0 := Reading.mk (Js.num 18) (Js.num 115) (Str "Alert")
               (now + 0 * 60 * 1000) 0 "Low screening score" []).
  set (r1 := Reading.mk (Js.num 20) (Js.num 110) (Str "Alert")
               (now + 15 * 60 * 1000) 0 "Low screening score" []).
  set (r2 := Reading.mk (Js.num 22) (Js.num 105) (Str "Alert")
               (now + 30 * 60 * 1000) 1 "Intermediate screening score"
               ["Respiratory rate at or above 22 breaths/min"]).
  set (r3 := Reading.mk (Js.num 24) (Js.num 100) (Str "Drowsy")
               (now + 45 * 60 * 1000) 3 "High screening score"
               ["Respiratory rate at or above 22 breaths/min";
                "Systolic blood pressure at or below 100 mmHg";
                "Altered mental status (not fully alert)"]).
  exists [r0; r1; r2; r3].
  exists [riskEscalatingAlert r1 r2; respiratoryRateAlert r2;
          riskEscalatingAlert r2 r3; highRiskAlert r3; bloodPressureAlert r3;
          mentalStatusAlert r3].
  split; [reflexivity|].
  split; [cbn [map Reading.timestamp r0 r1 r2 r3]; repeat f_equal; lia|].
  split; [reflexivity|]. split; [reflexivity|].
  split; [reflexivity|].
  cbn [map Alert.timestamp Alert.type riskEscalatingAlert respiratoryRateAlert
         highRiskAlert bloodPressureAlert mentalStatusAlert
         Reading.timestamp r2 r3].
  repeat f_equal; lia.
Qed.

(** ** ensurePatient *)

Lemma find_app {A : Type} (f : A -> bool) (l1 l2 : list A) :
  find f (l1 ++ l2)
  = match find f l1 with
    | Some x => Some x
    | None => find f l2
    end.
Proof.
  induction l1 as [|a l1 IH]; cbn [app find]; [reflexivity|].
  destruct (f a); [reflexivity | exact IH].
Qed.

Lemma strictEq_eq (a b : Js.Value) : strictEq a b = true -> a = b.
Proof.
  destruct a, b; cbn; try discriminate; try reflexivity.
  intros H. apply String.eqb_eq in H. now subst.
Qed.

Lemma strictEq_refl (a : Js.Value) : strictEq a a = true.
Proof. destruct a; cbn; try reflexivity. apply String.eqb_refl. Qed.

Lemma findOne_externalId (ps : list Patient.t) (id : string) (p : Patient.t) :
  findOne ps id = Some p -> In p ps /\ Patient.externalId p = id.
Proof.
  unfold findOne. intros H. apply find_some in H. destruct H as [Hin Heq].
  split; [exact Hin | now apply String.eqb_eq].
Qed.

(** After [save], the search that found the document finds its new version. *)
Lemma findOne_savePatient (ps : list Patient.t) (id : string) (p0 p : Patient.t) :
  findOne ps id = Some p0 ->
  Patient._id p = Patient._id p0 -> Patient.externalId p = id ->
  findOne (savePatient ps p) id = Some p.
Proof.
  unfold findOne, savePatient. intros Hfind Hid Hext.
  induction ps as [|q ps IH]; [discriminate|].
  cbn [find map] in *.
  destruct (String.eqb (Patient.externalId q) id) eqn:Eq.
  - injection Hfind as ->. rewrite Hid, Nat.eqb_refl. cbn [find].
    now rewrite Hext, String.eqb_refl.
  - destruct (Patient._id q =? Patient._id p)%nat; cbn [find].
    + now rewrite Hext, String.eqb_refl.
    + rewrite Eq. now apply IH.
Qed.

Lemma same_id_same_patient (ps : list Patient.t) (p q : Patient.t) :
  NoDup (map Patient._id ps) -> In p ps -> In q ps ->
  Patient._id p = Patient._id q -> p = q.
Proof.
  induction ps as [|x ps IH]; intros Hnd Hp Hq Hid; [destruct Hp|].
  cbn [map] in Hnd. apply NoDup_cons_iff in Hnd. destruct Hnd as [Hx Hnd].
  destruct Hp as [->|Hp], Hq as [->|Hq]; auto.
  - exfalso. apply Hx. rewrite Hid. now apply in_map.
  - exfalso. apply Hx. rewrite <- Hid. now apply in_map.
Qed.

(** Replacing a document by one with the same [_id] and [externalId]
    does not change the search for another identifier. *)
Lemma findOne_savePatient_other (ps : list Patient.t) (id' : string)
  (p0 p : Patient.t) :
  NoDup (map Patient._id ps) -> In p0 ps ->
  Patient._id p = Patient._id p0 ->
  Patient.externalId p = Patient.externalId p0 ->
  findOne (savePatient ps p) id' = findOne ps id'
  \/ (findOne ps id' = Some p0 /\ findOne (savePatient ps p) id' = Some p).
Proof.
  unfold findOne, savePatient. intros Hnd Hin Hid Hext.
  assert (forall q, In q ps -> (Patient._id q =? Patient._id p)%nat = true -> q = p0)
    as Hsame.
  { intros q Hq E. apply Nat.eqb_eq in E.
    apply (same_id_same_patient ps q p0 Hnd Hq Hin). congruence. }
  clear Hnd Hin.
  induction ps as [|q ps IH]; [now left|].
  cbn [find map].
  destruct (Patient._id q =? Patient._id p)%nat eqn:E.
  - rewrite (Hsame q (or_introl eq_refl) E), Hext.
    destruct (String.eqb (Patient.externalId p0) id'); [now right|].
    apply IH. intros x Hx. apply Hsame. now right.
  - destruct (String.eqb (Patient.externalId q) id'); [now left|].
    apply IH. intros x Hx. apply Hsame. now right.
Qed.

Lemma freshId_above (ps : list Patient.t) (p : Patient.t) :
  In p ps -> (Patient._id p < freshId ps)%nat.
Proof.
  intros Hin. unfold freshId.
  assert (Patient._id p <= list_max (map Patient._id ps))%nat; [|lia].
  pose proof (proj1 (list_max_le (map Patient._id ps) (list_max (map Patient._id ps)))
                (Nat.le_refl _)) as Hall.
  rewrite Forall_forall in Hall. apply Hall. now apply in_map.
Qed.

Lemma freshId_not_in (ps : list Patient.t) :
  ~ In (freshId ps) (map Patient._id ps).
Proof.
  intros Hin. apply in_map_iff in Hin. destruct Hin as (p & Hid & Hp).
  pose proof (freshId_above ps p Hp). lia.
Qed.

Lemma map_id_savePatient (ps : list Patient.t) (p : Patient.t) :
  map Patient._id (savePatient ps p) = map Patient._id ps.
Proof.
  unfold savePatient. rewrite map_map. apply map_ext_in. intros q _.
  destruct (Patient._id q =? Patient._id p)%nat eqn:E; [|reflexivity].
  apply Nat.eqb_eq in E. now rewrite E.
Qed.

(** What [ensurePatient] returns and stores, case by case. *)
Lemma ensurePatient_cases (db : Db) (id : string) (name location : Js.Value) :
  match findOne (patientCollection db) id with
  | None =>
      ensurePatient db id name location
      = (mkDb (patientCollection db
                 ++ [Patient.mk (freshId (patientCollection db)) id name location])
           (readingCollection db),
         Patient.mk (freshId (patientCollection db)) id name location)
  | Some p0 =>
      let p := Patient.mk (Patient._id p0) id (orElse name (Patient.name p0))
                 (orElse location (Patient.location p0)) in
      (ensurePatient db id name location
       = (mkDb (savePatient (patientCollection db) p) (readingCollection db), p)
       \/ (ensurePatient db id name location = (db, p0) /\ p0 = p))
  end.
Proof.
  unfold ensurePatient.
  destruct (findOne (patientCollection db) id) as [p0|] eqn:Hfind; [|reflexivity].
  destruct (findOne_externalId _ _ _ Hfind) as [_ Hext].
  cbn zeta. rewrite Hext.
  destruct (Js.truthy name) eqn:Tn; destruct (Js.truthy location) eqn:Tl;
    cbn [andb orb].
  - destruct (strictEq name (Patient.name p0)) eqn:En;
      destruct (strictEq location (Patient.location p0)) eqn:El;
      cbn [negb orb]; try (now left).
    right. split; [reflexivity|].
    apply strictEq_eq in En, El. unfold orElse. rewrite Tn, Tl, En, El, <- Hext.
    now destruct p0.
  - destruct (strictEq name (Patient.name p0)) eqn:En; cbn [negb orb];
      try (now left).
    right. split; [reflexivity|].
    apply strictEq_eq in En. unfold orElse. rewrite Tn, Tl, En, <- Hext.
    now destruct p0.
  - destruct (strictEq location (Patient.location p0)) eqn:El; cbn [negb orb];
      try (now left).
    right. split; [reflexivity|].
    apply strictEq_eq in El. unfold orElse. rewrite Tn, Tl, El, <- Hext.
    now destruct p0.
  - right. split; [reflexivity|]. unfold orElse. rewrite Tn, Tl, <- Hext.
    now destruct p0.
Qed.

Lemma ensurePatient_found (db : Db) (id : string) (name location : Js.Value) :
  findOne (patientCollection (fst (ensurePatient db id name location))) id
  = Some (snd (ensurePatient db id name location)).
Proof.
  pose proof (ensurePatient_cases db id name location) as Hc.
  destruct (findOne (patientCollection db) id) as [p0|] eqn:Hfind.
  - destruct (findOne_externalId _ _ _ Hfind) as [Hin Hext].
    cbn zeta in Hc. destruct Hc as [-> | [-> Hp]]; cbn [fst snd patientCollection].
    + now apply (findOne_savePatient _ id p0).
    + exact Hfind.
  - rewrite Hc. cbn [fst snd patientCollection].
    unfold findOne in *. rewrite find_app, Hfind. cbn [find Patient.externalId].
    now rewrite String.eqb_refl.
Qed.

Lemma ensurePatient_readings (db : Db) (id : string) (name location : Js.Value) :
  readingCollection (fst (ensurePatient db id name location))
  = readingCollection db.
Proof.
  pose proof (ensurePatient_cases db id name location) as Hc.
  destruct (findOne (patientCollection db) id) as [p0|].
  - cbn zeta in Hc. destruct Hc as [-> | [-> _]]; reflexivity.
  - now rewrite Hc.
Qed.

Lemma ensurePatient_given (db : Db) (id : string) (name location : Js.Value) :
  (Js.truthy name = true
   -> Patient.name (snd (ensurePatient db id name location)) = name)
  /\ (Js.truthy location = true
      -> Patient.location (snd (ensurePatient db id name location)) = location).
Proof.
  pose proof (ensurePatient_cases db id name location) as Hc.
  destruct (findOne (patientCollection db) id) as [p0|].
  - cbn zeta in Hc. destruct Hc as [-> | [-> ->]];
      cbn [snd Patient.name Patient.location]; unfold orElse;
      split; intros ->; reflexivity.
  - rewrite Hc. split; reflexivity.
Qed.

(** X9: after [ensurePatient] the external identifier is registered: the
    search finds the very document that is returned, which bears that
    identifier; the readings are untouched and the patient collection grows
    by one document exactly when the identifier was unknown. *)
Theorem ensurePatient_registers (db : Db) (id : string) (name location : Js.Value) :
  let '(db', p) := ensurePatient db id name location in
  findOne (patientCollection db') id = Some p
  /\ Patient.externalId p = id
  /\ readingCollection db' = readingCollection db
  /\ List.length (patientCollection db')
     = (List.length (patientCollection db)
        + match findOne (patientCollection db) id with
          | Some _ => 0
          | None => 1
          end)%nat.
Proof.
  pose proof (ensurePatient_cases db id name location) as Hc.
  destruct (findOne (patientCollection db) id) as [p0|] eqn:Hfind.
  - destruct (findOne_externalId _ _ _ Hfind) as [Hin Hext].
    cbn zeta in Hc. destruct Hc as [-> | [-> Hp]].
    + cbn [patientCollection readingCollection Patient.externalId].
      repeat split.
      * now apply (findOne_savePatient _ id p0).
      * unfold savePatient. rewrite length_map. lia.
    + repeat split; auto; lia.
  - rewrite Hc. cbn [patientCollection readingCollection Patient.externalId].
    repeat split.
    + unfold findOne in *. rewrite find_app, Hfind. cbn [find Patient.externalId].
      now rewrite String.eqb_refl.
    + rewrite length_app. reflexivity.
Qed.

(** X10: an empty or missing name or location never replaces a stored one:
    for a known patient the stored fields become the given ones where
    those are non-empty and stay as they were elsewhere, under the same
    [_id]; an unknown patient is created with the fields as given. *)
Theorem ensurePatient_merges_fields (db : Db) (id : string)
  (name location : Js.Value) :
  let '(db', p) := ensurePatient db id name location in
  match findOne (patientCollection db) id with
  | Some p0 =>
      Patient._id p = Patient._id p0
      /\ Patient.name p = (if Js.truthy name then name else Patient.name p0)
      /\ Patient.location p
         = (if Js.truthy location then location else Patient.location p0)
      /\ map Patient._id (patientCollection db')
         = map Patient._id (patientCollection db)
  | None =>
      p = Patient.mk (freshId (patientCollection db)) id name location
      /\ patientCollection db' = patientCollection db ++ [p]
      /\ ~ In (Patient._id p) (map Patient._id (patientCollection db))
  end.
Proof.
  pose proof (ensurePatient_cases db id name location) as Hc.
  destruct (findOne (patientCollection db) id) as [p0|] eqn:Hfind.
  - cbn zeta in Hc. destruct Hc as [-> | [-> Hp]].
    + cbn [patientCollection Patient._id Patient.name Patient.location].
      repeat split. apply map_id_savePatient.
    + repeat split; rewrite Hp at 1; reflexivity.
  - rewrite Hc. cbn [patientCollection Patient._id].
    repeat split. apply freshId_not_in.
Qed.

(** X11: [ensurePatient] is idempotent: a second call with the same
    arguments returns the same document and writes nothing. *)
Theorem ensurePatient_idempotent (db : Db) (id : string)
  (name location : Js.Value) :
  ensurePatient (fst (ensurePatient db id name location)) id name location
  = ensurePatient db id name location.
Proof.
  pose proof (ensurePatient_found db id name location) as Hfind'.
  pose proof (ensurePatient_given db id name location) as [Hn Hl].
  destruct (ensurePatient db id name location) as [db' p] eqn:E.
  cbn [fst snd] in *.
  unfold ensurePatient. rewrite Hfind'.
  destruct (Js.truthy name) eqn:Tn; destruct (Js.truthy location) eqn:Tl;
    cbn [andb orb]; rewrite ?Hn, ?Hl, ?strictEq_refl by reflexivity;
    reflexivity.
Qed.

(** ** The POST route *)


Lemma complete_fields (body : Body.t) :
  complete body = true ->
  exists rr sbp,
    Body.respiratoryRate body = Some rr /\ Body.systolicBP body = Some sbp
    /\ Js.truthy (Body.mentalStatus body) = true
    /\ Js.truthy (Body.timestamp body) = true.
Proof.
  unfold complete.
  destruct (Body.respiratoryRate body) as [rr|]; [|discriminate].
  destruct (Body.systolicBP body) as [sbp|]; [|discriminate].
  intros H. apply andb_true_iff in H. destruct H. now exists rr, sbp.
Qed.

Lemma postReading_incomplete (parseDate : string -> option Z) (db : Db)
  (id : string) (body : Body.t) :
  complete body = false -> postReading parseDate db id body = (db, BadRequest).
Proof.
  unfold complete, postReading.
  destruct (Body.respiratoryRate body); [|reflexivity].
  destruct (Body.systolicBP body); [|reflexivity].
  destruct (Js.truthy (Body.mentalStatus body)),
    (Js.truthy (Body.timestamp body)); try discriminate; reflexivity.
Qed.

Lemma postReading_complete (parseDate : string -> option Z) (db : Db)
  (id : string) (body : Body.t) (rr sbp : Q) :
  Body.respiratoryRate body = Some rr -> Body.systolicBP body = Some sbp ->
  Js.truthy (Body.mentalStatus body) = true ->
  Js.truthy (Body.timestamp body) = true ->
  let ensured := ensurePatient db id (Body.name body) (Body.location body) in
  postReading parseDate db id body
  = match toDate parseDate (Body.timestamp body) with
    | Return t =>
        let r := Reading.mk (Finite rr) (Finite sbp) (Body.mentalStatus body) t
                   (score (spec_score (mkObservation (Finite rr) (Finite sbp)
                                         (Body.mentalStatus body))))
                   (riskLabel (spec_score (mkObservation (Finite rr) (Finite sbp)
                                             (Body.mentalStatus body))))
                   (reasons (spec_score (mkObservation (Finite rr) (Finite sbp)
                                           (Body.mentalStatus body)))) in
        (mkDb (patientCollection (fst ensured))
           (readingCollection db ++ [ReadingDoc.mk (Patient._id (snd ensured)) r]),
         Created id r)
    | Throw _ => (fst ensured, ServerError)
    end.
Proof.
  intros Hrr Hsbp Hms Hts. cbn zeta. unfold postReading.
  rewrite Hrr, Hsbp, Hms, Hts. cbn [negb orb].
  pose proof (ensurePatient_found db id (Body.name body) (Body.location body))
    as Hfound.
  pose proof (ensurePatient_readings db id (Body.name body) (Body.location body))
    as Hread.
  destruct (ensurePatient db id (Body.name body) (Body.location body))
    as [db1 p]. cbn [fst snd] in *.
  destruct (findOne_externalId _ _ _ Hfound) as [_ Hext].
  rewrite calculateQSOFA_spec_score. cbn [Js.bind].
  destruct (toDate parseDate (Body.timestamp body)) as [t|e]; cbn [Js.bind].
  - now rewrite Hext, Hread.
  - reflexivity.
Qed.


(** ** Sorting by timestamp *)

Lemma insertByTimestamp_perm (r : Reading.t) (l : list Reading.t) :
  Permutation (insertByTimestamp r l) (r :: l).
Proof.
  induction l as [|x l IH]; cbn [insertByTimestamp]; [reflexivity|].
  destruct (Reading.timestamp r <=? Reading.timestamp x); [reflexivity|].
  rewrite IH. apply perm_swap.
Qed.

Lemma sortByTimestamp_perm (l : list Reading.t) :
  Permutation (sortByTimestamp l) l.
Proof.
  induction l as [|r l IH]; cbn [sortByTimestamp fold_right]; [reflexivity|].
  fold (sortByTimestamp l). rewrite insertByTimestamp_perm. now constructor.
Qed.

Lemma insertByTimestamp_sorted (r : Reading.t) (l : list Reading.t) :
  Sorted Z.le (map Reading.timestamp l) ->
  Sorted Z.le (map Reading.timestamp (insertByTimestamp r l)).
Proof.
  induction l as [|x l IH]; intros Hs; cbn [insertByTimestamp map].
  - repeat constructor.
  - destruct (Reading.timestamp r <=? Reading.timestamp x) eqn:E.
    + apply Z.leb_le in E. cbn [map]. constructor; [exact Hs|].
      constructor. exact E.
    + apply Z.leb_gt in E. cbn [map] in *. apply Sorted_inv in Hs.
      destruct Hs as [Hs Hhd]. constructor; [now apply IH|].
      destruct l as [|y l]; cbn [insertByTimestamp map].
      * constructor. lia.
      * destruct (Reading.timestamp r <=? Reading.timestamp y);
          cbn [map]; constructor; [lia|].
        apply HdRel_inv in Hhd. exact Hhd.
Qed.

Lemma sortByTimestamp_sorted (l : list Reading.t) :
  Sorted Z.le (map Reading.timestamp (sortByTimestamp l)).
Proof.
  induction l as [|r l IH]; cbn [sortByTimestamp fold_right map];
    [constructor|].
  now apply insertByTimestamp_sorted.
Qed.

Lemma forallb_perm {A : Type} (f : A -> bool) (l1 l2 : list A) :
  Permutation l1 l2 -> forallb f l2 = true -> forallb f l1 = true.
Proof.
  intros Hp H. rewrite forallb_forall in *. intros x Hx. apply H.
  eapply Permutation_in; eassumption.
Qed.

Lemma forallb_filter {A : Type} (f g : A -> bool) (l : list A) :
  forallb f l = true -> forallb f (filter g l) = true.
Proof.
  intros H. rewrite forallb_forall in *. intros x Hx.
  apply filter_In in Hx. now apply H.
Qed.

Lemma readingsOf_statuses (db : Db) (p : Patient.t) :
  allStatusesAreStrings db = true ->
  forallb hasStringStatus (readingsOf db p) = true.
Proof.
  unfold allStatusesAreStrings, readingsOf. intros H.
  eapply forallb_perm; [apply sortByTimestamp_perm|].
  rewrite forallb_forall in *. intros r Hr.
  apply in_map_iff in Hr. destruct Hr as (d & <- & Hd).
  apply filter_In in Hd. now apply H.
Qed.

(** ** The summary route *)

Lemma summary_returns (rs : list Reading.t) (s : Summary) :
  summary rs = Return s ->
  readings s = rs /\ trendAlerts rs = Return (alerts s)
  /\ match overall s with
     | None => rs = []
     | Some o => totalReadings o = List.length rs /\ rs <> []
     end.
Proof.
  unfold summary. destruct (List.length rs =? 0)%nat eqn:E.
  - apply Nat.eqb_eq in E. apply length_zero_iff_nil in E. subst rs.
    intros [= <-]. repeat split.
  - apply Nat.eqb_neq in E.
    destruct (trendAlerts rs) as [al|e]; cbn [Js.bind]; [|discriminate].
    destruct (Js.index rs (List.length rs - 1)) as [latest|e]; cbn [Js.bind];
      [|discriminate].
    intros [= <-]. cbn [readings alerts overall totalReadings].
    repeat split. intros ->. now apply E.
Qed.

Lemma postReading_statuses (parseDate : string -> option Z) (db : Db)
  (id : string) (body : Body.t) :
  allStatusesAreStrings db = true ->
  allStatusesAreStrings (fst (postReading parseDate db id body)) = true.
Proof.
  intros H. destruct (complete body) eqn:Hc.
  - destruct (complete_fields body Hc) as (rr & sbp & Hrr & Hsbp & Hms & Hts).
    rewrite (postReading_complete parseDate db id body rr sbp Hrr Hsbp Hms Hts).
    cbn zeta.
    destruct (toDate parseDate (Body.timestamp body)) as [t|e]; cbn [fst].
    + unfold allStatusesAreStrings in *. cbn [readingCollection].
      rewrite forallb_app, H. cbn [forallb ReadingDoc.reading].
      unfold hasStringStatus. cbn [Reading.mentalStatus].
      destruct (truthy_Str _ Hms) as (s & -> & _). reflexivity.
    + unfold allStatusesAreStrings in *. now rewrite ensurePatient_readings.
  - now rewrite (postReading_incomplete parseDate db id body Hc).
Qed.

Lemma postAll_statuses (parseDate : string -> option Z)
  (requests : list (string * Body.t)) :
  forall db, allStatusesAreStrings db = true ->
             allStatusesAreStrings (postAll parseDate db requests) = true.
Proof.
  induction requests as [|[id body] rest IH]; intros db H; [exact H|].
  cbn [postAll]. apply IH. now apply postReading_statuses.
Qed.

Lemma getSummary_with_statuses (db : Db) (id : string) :
  allStatusesAreStrings db = true ->
  getSummary db id = NotFound
  \/ exists name location s, getSummary db id = Ok id name location s.
Proof.
  intros H. unfold getSummary.
  destruct (findOne (patientCollection db) id) as [p|] eqn:Hfind; [|now left].
  right. destruct (findOne_externalId _ _ _ Hfind) as [_ ->].
  destruct (summary_alerts (readingsOf db p) (readingsOf_statuses db p H))
    as (s & -> & _).
  now exists (Patient.name p), (Patient.location p), s.
Qed.

(** X13: on data written through the POST route the summary route never
    answers 500: whatever the requests were, every stored status is a
    string, so the unguarded comparison of the alert loop cannot throw, and
    the answer is 404 or 200. *)
Theorem summary_never_fails_on_posted_data (parseDate : string -> option Z)
  (requests : list (string * Body.t)) (id : string) :
  allStatusesAreStrings (postAll parseDate emptyDb requests) = true
  /\ (getSummary (postAll parseDate emptyDb requests) id = NotFound
      \/ exists name location s,
          getSummary (postAll parseDate emptyDb requests) id
          = Ok id name location s).
Proof.
  assert (allStatusesAreStrings (postAll parseDate emptyDb requests) = true)
    as H by (now apply postAll_statuses).
  split; [exact H | now apply getSummary_with_statuses].
Qed.

(** X14: whenever the summary route answers 200, for any content of the
    store, the readings it lists are those stored for the patient in
    ascending timestamp order, the alerts are in chronological order too,
    and the overall section is absent exactly when there is no reading and
    otherwise counts the readings listed. *)
Theorem summary_is_chronological (db : Db) (id : string)
  (name location : Js.Value) (s : Summary) :
  getSummary db id = Ok id name location s ->
  readings s = storedReadings db id
  /\ Sorted Z.le (map Reading.timestamp (readings s))
  /\ Sorted Z.le (map Alert.timestamp (alerts s))
  /\ match overall s with
     | None => readings s = []
     | Some o => totalReadings o = List.length (readings s) /\ readings s <> []
     end.
Proof.
  unfold getSummary, storedReadings.
  destruct (findOne (patientCollection db) id) as [p|]; [|discriminate].
  destruct (summary (readingsOf db p)) as [s'|e] eqn:Hs; [|discriminate].
  intros [= _ _ _ ->].
  destruct (summary_returns _ _ Hs) as (Hr & Hal & Hov).
  assert (Sorted Z.le (map Reading.timestamp (readingsOf db p))) as Hsorted
      by apply sortByTimestamp_sorted.
  rewrite Hr. repeat split; auto.
  apply trendAlerts_returns in Hal. rewrite Hal.
  apply StronglySorted_Sorted. apply alert_timestamps_sorted.
  apply Sorted_StronglySorted; [|exact Hsorted].
  intros x y z. apply Z.le_trans.
Qed.

(** ** One patient at a time *)

Lemma NoDup_snoc {A : Type} (l : list A) (x : A) :
  NoDup l -> ~ In x l -> NoDup (l ++ [x]).
Proof.
  intros Hnd Hx. apply NoDup_app; [exact Hnd | repeat constructor; auto |].
  intros a Ha [<-|[]]. now apply Hx.
Qed.

Lemma ensurePatient_ids (db : Db) (id : string) (name location : Js.Value) :
  NoDup (map Patient._id (patientCollection db)) ->
  NoDup (map Patient._id
           (patientCollection (fst (ensurePatient db id name location))))
  /\ forall n, In n (map Patient._id (patientCollection db)) ->
               In n (map Patient._id
                       (patientCollection (fst (ensurePatient db id name location)))).
Proof.
  intros Hnd.
  pose proof (ensurePatient_cases db id name location) as Hc.
  destruct (findOne (patientCollection db) id) as [p0|].
  - cbn zeta in Hc. destruct Hc as [-> | [-> _]]; cbn [fst patientCollection].
    + rewrite map_id_savePatient. now split.
    + now split.
  - rewrite Hc. cbn [fst patientCollection]. rewrite map_app. cbn [map Patient._id].
    split.
    + apply NoDup_snoc; [exact Hnd | apply freshId_not_in].
    + intros n Hn. apply in_or_app. now left.
Qed.

Lemma ensurePatient_other (db : Db) (id id' : string) (name location : Js.Value) :
  NoDup (map Patient._id (patientCollection db)) -> id' <> id ->
  findOne (patientCollection (fst (ensurePatient db id name location))) id'
  = findOne (patientCollection db) id'.
Proof.
  intros Hnd Hne.
  pose proof (ensurePatient_cases db id name location) as Hc.
  destruct (findOne (patientCollection db) id) as [p0|] eqn:Hfind.
  - destruct (findOne_externalId _ _ _ Hfind) as [Hin Hext].
    cbn zeta in Hc. destruct Hc as [-> | [-> _]]; cbn [fst patientCollection];
      [|reflexivity].
    destruct (findOne_savePatient_other (patientCollection db) id' p0
                (Patient.mk (Patient._id p0) id
                   (orElse name (Patient.name p0))
                   (orElse location (Patient.location p0))) Hnd Hin)
      as [H | [H _]]; auto.
    destruct (findOne_externalId _ _ _ H) as [_ Hext']. congruence.
  - rewrite Hc. cbn [fst patientCollection]. unfold findOne.
    rewrite find_app. cbn [find Patient.externalId].
    destruct (String.eqb id id') eqn:E;
      [apply String.eqb_eq in E; congruence|].
    now destruct (find _ (patientCollection db)).
Qed.

Lemma ensurePatient_other_id (db : Db) (id id' : string)
  (name location : Js.Value) (q : Patient.t) :
  NoDup (map Patient._id (patientCollection db)) -> id' <> id ->
  findOne (patientCollection db) id' = Some q ->
  Patient._id (snd (ensurePatient db id name location)) <> Patient._id q.
Proof.
  intros Hnd Hne Hq. destruct (findOne_externalId _ _ _ Hq) as [Hqin Hqext].
  pose proof (ensurePatient_cases db id name location) as Hc.
  destruct (findOne (patientCollection db) id) as [p0|] eqn:Hfind.
  - destruct (findOne_externalId _ _ _ Hfind) as [Hin Hext].
    assert (Patient._id p0 <> Patient._id q) as Hdiff.
    { intros E. apply (same_id_same_patient _ p0 q Hnd Hin Hqin) in E.
      congruence. }
    cbn zeta in Hc. destruct Hc as [-> | [-> _]]; exact Hdiff.
  - rewrite Hc. cbn [snd Patient._id].
    pose proof (freshId_above _ q Hqin). lia.
Qed.

Lemma readingsOf_same (db db' : Db) (p : Patient.t) :
  readingCollection db' = readingCollection db ->
  readingsOf db' p = readingsOf db p.
Proof. unfold readingsOf. now intros ->. Qed.

Lemma readingsOf_snoc_other (db db' : Db) (p : Patient.t) (d : ReadingDoc.t) :
  readingCollection db' = readingCollection db ++ [d] ->
  ReadingDoc.patient d <> Patient._id p ->
  readingsOf db' p = readingsOf db p.
Proof.
  unfold readingsOf. intros -> Hne. rewrite filter_app. cbn [filter].
  destruct (ReadingDoc.patient d =? Patient._id p)%nat eqn:E;
    [apply Nat.eqb_eq in E; contradiction|].
  now rewrite app_nil_r.
Qed.

Lemma readingsOf_snoc_own (db db' : Db) (p : Patient.t) (d : ReadingDoc.t) :
  readingCollection db' = readingCollection db ++ [d] ->
  ReadingDoc.patient d = Patient._id p ->
  Permutation (readingsOf db' p) (ReadingDoc.reading d :: readingsOf db p).
Proof.
  unfold readingsOf. intros -> He. rewrite filter_app. cbn [filter].
  rewrite He, Nat.eqb_refl, map_app. cbn [map].
  rewrite !sortByTimestamp_perm. rewrite Permutation_app_comm. reflexivity.
Qed.

Lemma readingsOf_same_id (db : Db) (p q : Patient.t) :
  Patient._id p = Patient._id q -> readingsOf db p = readingsOf db q.
Proof. unfold readingsOf. now intros ->. Qed.

Lemma readingsOf_unreferenced (db : Db) (p : Patient.t) :
  (forall d, In d (readingCollection db) ->
             In (ReadingDoc.patient d) (map Patient._id (patientCollection db))) ->
  ~ In (Patient._id p) (map Patient._id (patientCollection db)) ->
  readingsOf db p = [].
Proof.
  intros Href Hp. unfold readingsOf.
  replace (filter _ (readingCollection db)) with (@nil ReadingDoc.t);
    [reflexivity|].
  symmetry. induction (readingCollection db) as [|d l IH]; [reflexivity|].
  cbn [filter]. destruct (ReadingDoc.patient d =? Patient._id p)%nat eqn:E.
  - apply Nat.eqb_eq in E. exfalso. apply Hp. rewrite <- E. apply Href. now left.
  - apply IH. intros x Hx. apply Href. now right.
Qed.

(** What a POST leaves of the view of another patient. *)
Lemma postReading_other (parseDate : string -> option Z) (db : Db)
  (id id' : string) (body : Body.t) :
  NoDup (map Patient._id (patientCollection db)) -> id' <> id ->
  findOne (patientCollection (fst (postReading parseDate db id body))) id'
  = findOne (patientCollection db) id'
  /\ forall q, findOne (patientCollection db) id' = Some q ->
               readingsOf (fst (postReading parseDate db id body)) q
               = readingsOf db q.
Proof.
  intros Hnd Hne. destruct (complete body) eqn:Hc.
  - destruct (complete_fields body Hc) as (rr & sbp & Hrr & Hsbp & Hms & Hts).
    rewrite (postReading_complete parseDate db id body rr sbp Hrr Hsbp Hms Hts).
    cbn zeta.
    pose proof (ensurePatient_other db id id' (Body.name body)
                  (Body.location body) Hnd Hne) as Hfind.
    destruct (toDate parseDate (Body.timestamp body)) as [t|e];
      cbn [fst patientCollection]; (split; [exact Hfind|]); intros q Hq.
    + eapply readingsOf_snoc_other; [reflexivity|].
      cbn [ReadingDoc.patient]. now apply ensurePatient_other_id with (id' := id').
    + apply readingsOf_same. apply ensurePatient_readings.
  - rewrite (postReading_incomplete parseDate db id body Hc). now split.
Qed.

Lemma postReading_consistent (parseDate : string -> option Z) (db : Db)
  (id : string) (body : Body.t) :
  consistent db -> consistent (fst (postReading parseDate db id body)).
Proof.
  intros [Hnd Href]. destruct (complete body) eqn:Hc.
  - destruct (complete_fields body Hc) as (rr & sbp & Hrr & Hsbp & Hms & Hts).
    rewrite (postReading_complete parseDate db id body rr sbp Hrr Hsbp Hms Hts).
    cbn zeta.
    destruct (ensurePatient_ids db id (Body.name body) (Body.location body) Hnd)
      as [Hnd' Hsub].
    pose proof (ensurePatient_found db id (Body.name body) (Body.location body))
      as Hfound.
    pose proof (ensurePatient_readings db id (Body.name body) (Body.location body))
      as Hread.
    destruct (toDate parseDate (Body.timestamp body)) as [t|e]; cbn [fst];
      split; cbn [patientCollection readingCollection]; auto.
    + intros d Hd. apply in_app_or in Hd. destruct Hd as [Hd|[<-|[]]].
      * apply Hsub. now apply Href.
      * cbn [ReadingDoc.patient]. apply in_map.
        now apply (findOne_externalId _ id).
    + intros d Hd. rewrite Hread in Hd. apply Hsub. now apply Href.
  - now rewrite (postReading_incomplete parseDate db id body Hc).
Qed.

Lemma ensurePatient_stored_before (db : Db) (id : string)
  (name location : Js.Value) :
  consistent db ->
  readingsOf db (snd (ensurePatient db id name location))
  = storedReadings db id.
Proof.
  intros [Hnd Href]. unfold storedReadings.
  pose proof (ensurePatient_cases db id name location) as Hc.
  destruct (findOne (patientCollection db) id) as [p0|].
  - cbn zeta in Hc. destruct Hc as [-> | [-> _]]; cbn [snd]; [|reflexivity].
    now apply readingsOf_same_id.
  - rewrite Hc. cbn [snd]. apply readingsOf_unreferenced; [exact Href|].
    apply freshId_not_in.
Qed.

(** X15: a POST for one external identifier changes nothing in the
    summary of any other, whatever its outcome, as long as the patient
    documents have distinct [_id]s. *)
Theorem post_leaves_other_patients_alone (parseDate : string -> option Z)
  (db : Db) (id id' : string) (body : Body.t) :
  NoDup (map Patient._id (patientCollection db)) -> id' <> id ->
  getSummary (fst (postReading parseDate db id body)) id' = getSummary db id'.
Proof.
  intros Hnd Hne.
  destruct (postReading_other parseDate db id id' body Hnd Hne) as [Hfind Hread].
  unfold getSummary. rewrite Hfind.
  destruct (findOne (patientCollection db) id') as [q|]; [|reflexivity].
  now rewrite Hread.
Qed.

Lemma post_leaves_other_patients_alone_witness :
  getSummary (fst (postReading lengthAsMinutes wardDb "bed-7" feverishBody)) "bed-3"
  = getSummary wardDb "bed-3".
Proof.
  apply (post_leaves_other_patients_alone lengthAsMinutes wardDb "bed-7" "bed-3").
  - vm_compute. repeat constructor. intros [].
  - discriminate.
Defined.

(** X16: after a POST answered 201 on a consistent store whose statuses
    are strings, the summary of that patient answers 200 and lists the
    readings stored before together with the new one, its overall section
    counting one reading more. *)
Theorem post_adds_one_reading (parseDate : string -> option Z) (db db' : Db)
  (id patientId : string) (body : Body.t) (r : Reading.t) :
  consistent db -> allStatusesAreStrings db = true ->
  postReading parseDate db id body = (db', Created patientId r) ->
  exists name location s o,
    getSummary db' id = Ok id name location s
    /\ Permutation (readings s) (r :: storedReadings db id)
    /\ overall s = Some o
    /\ totalReadings o = Datatypes.S (List.length (storedReadings db id)).
Proof.
  intros Hcons Hst Hpost. pose proof Hpost as Hpost0.
  destruct (complete body) eqn:Hc;
    [|rewrite (postReading_incomplete parseDate db id body Hc) in Hpost;
      discriminate].
  destruct (complete_fields body Hc) as (rr & sbp & Hrr & Hsbp & Hms & Hts).
  rewrite (postReading_complete parseDate db id body rr sbp Hrr Hsbp Hms Hts)
    in Hpost. cbn zeta in Hpost.
  pose proof (ensurePatient_found db id (Body.name body) (Body.location body))
    as Hfound.
  pose proof (ensurePatient_stored_before db id (Body.name body)
                (Body.location body) Hcons) as Hbefore.
  destruct (toDate parseDate (Body.timestamp body)) as [t|e]; [|discriminate].
  injection Hpost as Hdb _ Hnew. rewrite Hnew in Hdb. clear Hnew. subst db'.
  set (p := snd (ensurePatient db id (Body.name body) (Body.location body))) in *.
  match goal with
  | |- context [getSummary ?d id] => set (db1 := d) in *
  end.
  pose proof (postReading_statuses parseDate db id body Hst) as Hst'.
  rewrite Hpost0 in Hst'. cbn [fst] in Hst'.
  destruct (findOne_externalId _ _ _ Hfound) as [_ Hext].
  destruct (summary_alerts (readingsOf db1 p) (readingsOf_statuses db1 p Hst'))
    as (s & Hs & _).
  destruct (summary_returns _ _ Hs) as (Hr & _ & Hov).
  assert (Permutation (readingsOf db1 p) (r :: storedReadings db id)) as Hperm.
  { rewrite <- Hbefore.
    apply (readingsOf_snoc_own db db1 p (ReadingDoc.mk (Patient._id p) r));
      reflexivity. }
  pose proof (Permutation_length Hperm) as Hlen. cbn [List.length] in Hlen.
  destruct (overall s) as [o|] eqn:Ho;
    [|rewrite Hov in Hlen; discriminate].
  exists (Patient.name p), (Patient.location p), s, o.
  split; [|split; [|split]].
  - unfold getSummary.
    change (patientCollection db1)
      with (patientCollection
              (fst (ensurePatient db id (Body.name body) (Body.location body)))).
    now rewrite Hfound, Hs, Hext.
  - now rewrite Hr.
  - exact Ho.
  - destruct Hov as [-> _]. exact Hlen.
Qed.

Lemma post_adds_one_reading_witness :
  exists name location s o,
    getSummary wardDb "bed-3" = Ok "bed-3" name location s
    /\ Permutation (readings s)
         (feverishReading :: storedReadings restedDb "bed-3")
    /\ overall s = Some o
    /\ totalReadings o = Datatypes.S (List.length (storedReadings restedDb "bed-3")).
Proof.
  apply (post_adds_one_reading lengthAsMinutes restedDb wardDb "bed-3" "bed-3"
           feverishBody feverishReading).
  - split.
    + vm_compute. repeat constructor. intros [].
    + intros d Hd. vm_compute in Hd. destruct Hd as [<-|[]]. vm_compute. now left.
  - reflexivity.
  - reflexivity.
Defined.

(** ** A whole session of POST requests *)



Lemma postAll_consistent (parseDate : string -> option Z)
  (requests : list (string * Body.t)) :
  forall db, consistent db -> consistent (postAll parseDate db requests).
Proof.
  induction requests as [|[i body] rest IH]; intros db H; [exact H|].
  cbn [postAll]. apply IH. now apply postReading_consistent.
Qed.




Lemma getSummary_Ok (db : Db) (ext : string) (id : string)
  (name location : Js.Value) (s : Summary) :
  getSummary db id = Ok ext name location s ->
  ext = id /\ known db id = true /\ readings s = storedReadings db id
  /\ match overall s with
     | None => storedReadings db id = []
     | Some o => totalReadings o = List.length (storedReadings db id)
     end.
Proof.
  unfold getSummary, storedReadings, known.
  destruct (findOne (patientCollection db) id) as [p|] eqn:Hfind; [|discriminate].
  destruct (findOne_externalId _ _ _ Hfind) as [_ Hext].
  destruct (summary (readingsOf db p)) as [s'|e] eqn:Hs; [|discriminate].
  intros [= <- _ _ ->].
  destruct (summary_returns _ _ Hs) as (Hr & _ & Hov).
  repeat split; auto.
  destruct (overall s); [now destruct Hov | exact Hov].
Qed.


Lemma summary_is_chronological_witness :
  exists s,
    getSummary wardDb "bed-3" = Ok "bed-3" (Str "Ann") (Str "Ward 12") s
    /\ Sorted Z.le (map Alert.timestamp (alerts s)).
Proof.
  assert (exists s, getSummary wardDb "bed-3"
                    = Ok "bed-3" (Str "Ann") (Str "Ward 12") s) as [s Hs]
      by (eexists; reflexivity).
  exists s. split; [exact Hs|].
  apply (summary_is_chronological wardDb "bed-3" (Str "Ann") (Str "Ward 12") s Hs).
Defined.

(** ** Stored readings are never rescored *)

Lemma postReading_selfScored (parseDate : string -> option Z) (db : Db)
  (id : string) (body : Body.t) :
  (forall d, In d (readingCollection db) -> selfScored (ReadingDoc.reading d)) ->
  forall d, In d (readingCollection (fst (postReading parseDate db id body))) ->
            selfScored (ReadingDoc.reading d).
Proof.
  intros H. destruct (complete body) eqn:Hc.
  - destruct (complete_fields body Hc) as (rr & sbp & Hrr & Hsbp & Hms & Hts).
    rewrite (postReading_complete parseDate db id body rr sbp Hrr Hsbp Hms Hts).
    cbn zeta.
    destruct (toDate parseDate (Body.timestamp body)) as [t|e]; cbn [fst].
    + cbn [readingCollection]. intros d Hd. apply in_app_or in Hd.
      destruct Hd as [Hd|[<-|[]]]; [now apply H|].
      cbn [ReadingDoc.reading]. split; [|exact Hms].
      cbn [Reading.respiratoryRate Reading.systolicBP Reading.mentalStatus
             Reading.timestamp].
      apply createReading_returns.
    + now rewrite ensurePatient_readings.
  - now rewrite (postReading_incomplete parseDate db id body Hc).
Qed.

Lemma postAll_selfScored (parseDate : string -> option Z)
  (requests : list (string * Body.t)) :
  forall db,
    (forall d, In d (readingCollection db) -> selfScored (ReadingDoc.reading d)) ->
    forall d, In d (readingCollection (postAll parseDate db requests)) ->
              selfScored (ReadingDoc.reading d).
Proof.
  induction requests as [|[i body] rest IH]; intros db H; [exact H|].
  cbn [postAll]. apply IH. now apply postReading_selfScored.
Qed.

Lemma In_readingsOf (db : Db) (p : Patient.t) (r : Reading.t) :
  In r (readingsOf db p) ->
  exists d, In d (readingCollection db) /\ ReadingDoc.reading d = r
            /\ ReadingDoc.patient d = Patient._id p.
Proof.
  unfold readingsOf. intros H.
  apply (Permutation_in _ (sortByTimestamp_perm _)) in H.
  apply in_map_iff in H. destruct H as (d & <- & Hd).
  apply filter_In in Hd. destruct Hd as [Hd E]. apply Nat.eqb_eq in E.
  now exists d.
Qed.

(** X18: after any sequence of POST requests on an empty store, every
    reading a summary lists is exactly what the server's scoring yields for
    the vitals, status and timestamp it carries, and its status is a
    non-empty string: stored scores, labels and reasons are never out of
    step with the stored vitals. *)
Theorem stored_readings_are_scored (parseDate : string -> option Z)
  (requests : list (string * Body.t)) (id ext : string)
  (name location : Js.Value) (s : Summary) (r : Reading.t) :
  getSummary (postAll parseDate emptyDb requests) id = Ok ext name location s ->
  In r (readings s) ->
  selfScored r.
Proof.
  intros Hok Hin.
  destruct (getSummary_Ok _ _ _ _ _ _ Hok) as (_ & _ & Hr & _).
  rewrite Hr in Hin. unfold storedReadings in Hin.
  destruct (findOne _ id) as [p|]; [|destruct Hin].
  destruct (In_readingsOf _ p r Hin) as (d & Hd & <- & _).
  apply (postAll_selfScored parseDate requests emptyDb); [intros x []|exact Hd].
Qed.

Lemma stored_readings_are_scored_witness : selfScored feverishReading.
Proof.
  assert (exists s, getSummary wardDb "bed-3"
                    = Ok "bed-3" (Str "Ann") (Str "Ward 12") s
                    /\ In feverishReading (readings s)) as (s & Hs & Hin).
  { eexists. split; [reflexivity|]. right. left. reflexivity. }
  apply (stored_readings_are_scored lengthAsMinutes
           [("bed-3", restingBody); ("bed-3", feverishBody)]
           "bed-3" "bed-3" (Str "Ann") (Str "Ward 12") s feverishReading Hs Hin).
Defined.

(** ** Arrival order *)

Lemma sorted_permutation_unique (s1 : list Reading.t) :
  forall s2,
    StronglySorted Z.le (map Reading.timestamp s1) ->
    StronglySorted Z.le (map Reading.timestamp s2) ->
    NoDup (map Reading.timestamp s1) ->
    Permutation s1 s2 -> s1 = s2.
Proof.
  induction s1 as [|a t1 IH]; intros s2 H1 H2 Hnd Hp.
  - apply Permutation_nil in Hp. now subst.
  - destruct s2 as [|b t2];
      [apply Permutation_sym, Permutation_nil in Hp; discriminate|].
    cbn [map] in H1, H2, Hnd.
    apply StronglySorted_inv in H1. destruct H1 as [H1 Ha].
    apply StronglySorted_inv in H2. destruct H2 as [H2 Hb].
    apply NoDup_cons_iff in Hnd. destruct Hnd as [Hat Hnd].
    rewrite Forall_forall in Ha, Hb.
    assert (In b (a :: t1)) as Hbin
        by (apply (Permutation_in _ (Permutation_sym Hp)); now left).
    assert (In a (b :: t2)) as Hain
        by (apply (Permutation_in _ Hp); now left).
    assert (a = b) as ->.
    { destruct Hbin as [E|Hbin]; [exact E|].
      destruct Hain as [E|Hain]; [now symmetry|].
      exfalso. apply Hat.
      assert (Reading.timestamp a = Reading.timestamp b) as ->.
      { apply Z.le_antisymm.
        - apply Ha. now apply in_map.
        - apply Hb. now apply in_map. }
      now apply in_map. }
    f_equal. apply IH; auto. eapply Permutation_cons_inv; eassumption.
Qed.

(** X19: when the timestamps are pairwise distinct, the order in which
    readings reached the store does not matter: any two arrangements of the
    same readings are sorted into the same list, hence give one summary. *)
Theorem arrival_order_is_irrelevant (l1 l2 : list Reading.t) :
  Permutation l1 l2 ->
  NoDup (map Reading.timestamp l1) ->
  sortByTimestamp l1 = sortByTimestamp l2
  /\ summary (sortByTimestamp l1) = summary (sortByTimestamp l2).
Proof.
  intros Hp Hnd.
  assert (sortByTimestamp l1 = sortByTimestamp l2) as ->; [|now split].
  apply sorted_permutation_unique.
  - apply Sorted_StronglySorted; [|apply sortByTimestamp_sorted].
    intros x y z. apply Z.le_trans.
  - apply Sorted_StronglySorted; [|apply sortByTimestamp_sorted].
    intros x y z. apply Z.le_trans.
  - eapply Permutation_NoDup; [|exact Hnd].
    apply Permutation_map. symmetry. apply sortByTimestamp_perm.
  - rewrite !sortByTimestamp_perm. exact Hp.
Qed.

Lemma arrival_order_is_irrelevant_witness :
  sortByTimestamp [septicReading; calmReading]
  = sortByTimestamp [calmReading; septicReading]
  /\ summary (sortByTimestamp [septicReading; calmReading])
     = summary (sortByTimestamp [calmReading; septicReading]).
Proof.
  apply (arrival_order_is_irrelevant [septicReading; calmReading]
           [calmReading; septicReading]).
  - apply perm_swap.
  - cbn. repeat constructor; cbn; intuition discriminate.
Defined.
